(** * A minimal user-authentication module: shallow embedding and properties

    The development follows the layers of the repository:

    - [hashlib]: the SHA-256 digest used by [User._get_password_hash];
    - [jwt]: a symbolic model of the signed tokens the domain issues and reads;
    - [Settings], DTOs and the domain errors;
    - the SQLAlchemy session, on a table that takes every text and on the
      PostgreSQL table, and [BaseRepository] / [UserRepository];
    - the [User] aggregate (create, login, get_current);
    - the login handlers of the transport layer.

    A Python [str] is represented by the string of its UTF-8 bytes, so
    [str.encode()] is the identity on the representation and [""] is the
    empty text. *)

From Stdlib Require Import ZArith List String Ascii Lia.
From stdpp Require Import base option gmap strings list fin_maps.

Local Open Scope Z_scope.
Local Open Scope string_scope.
Local Open Scope list_scope.

(* ===================================================================== *)
(** ** hashlib.sha256 (FIPS 180-4) on 32-bit words carried by [Z]          *)
(* ===================================================================== *)

Module hashlib.

Definition mask32 (x : Z) : Z := Z.land x 4294967295.

Definition add32 (x y : Z) : Z := mask32 (x + y).

Definition not32 (x : Z) : Z := Z.lxor x 4294967295.

Definition rotr (n x : Z) : Z :=
  Z.lor (Z.shiftr x n) (mask32 (Z.shiftl x (32 - n))).

Definition choose (e f g : Z) : Z := Z.lxor (Z.land e f) (Z.land (not32 e) g).

Definition majority (a b c : Z) : Z :=
  Z.lxor (Z.lxor (Z.land a b) (Z.land a c)) (Z.land b c).

Definition big_sigma0 (x : Z) : Z :=
  Z.lxor (Z.lxor (rotr 2 x) (rotr 13 x)) (rotr 22 x).

Definition big_sigma1 (x : Z) : Z :=
  Z.lxor (Z.lxor (rotr 6 x) (rotr 11 x)) (rotr 25 x).

Definition small_sigma0 (x : Z) : Z :=
  Z.lxor (Z.lxor (rotr 7 x) (rotr 18 x)) (Z.shiftr x 3).

Definition small_sigma1 (x : Z) : Z :=
  Z.lxor (Z.lxor (rotr 17 x) (rotr 19 x)) (Z.shiftr x 10).

(** Round constants: the first 32 bits of the fractional parts of the cube
    roots of the first 64 primes. *)
Definition round_constants : list Z :=
  [ 1116352408; 1899447441; 3049323471; 3921009573;
    961987163; 1508970993; 2453635748; 2870763221;
    3624381080; 310598401; 607225278; 1426881987;
    1925078388; 2162078206; 2614888103; 3248222580;
    3835390401; 4022224774; 264347078; 604807628;
    770255983; 1249150122; 1555081692; 1996064986;
    2554220882; 2821834349; 2952996808; 3210313671;
    3336571891; 3584528711; 113926993; 338241895;
    666307205; 773529912; 1294757372; 1396182291;
    1695183700; 1986661051; 2177026350; 2456956037;
    2730485921; 2820302411; 3259730800; 3345764771;
    3516065817; 3600352804; 4094571909; 275423344;
    430227734; 506948616; 659060556; 883997877;
    958139571; 1322822218; 1537002063; 1747873779;
    1955562222; 2024104815; 2227730452; 2361852424;
    2428436474; 2756734187; 3204031479; 3329325298 ].

(** The eight working words of the compression function. *)
Record regs : Type := mkRegs {
  ra : Z; rb : Z; rc : Z; rd : Z; re : Z; rf : Z; rg : Z; rh : Z
}.

Definition initial_hash : regs :=
  mkRegs 1779033703 3144134277 1013904242 2773480762
         1359893119 2600822924 528734635 1541459225.

(** [str.encode()] and byte concatenation: the bytes of a text as numbers. *)
Definition bytes_of (s : string) : list Z :=
  map (fun c : ascii => Z.of_N (N_of_ascii c)) (list_ascii_of_string s).

Definition be64 (n : Z) : list Z :=
  map (fun i : Z => Z.land (Z.shiftr n (8 * i)) 255) [7; 6; 5; 4; 3; 2; 1; 0].

(** Padding: a [0x80] byte, zeros up to 56 modulo 64, the bit length. *)
Definition pad (msg : list Z) : list Z :=
  let len := Z.of_nat (length msg) in
  msg ++ [128] ++ repeat 0 (Z.to_nat ((55 - len) mod 64)) ++ be64 (8 * len).

Fixpoint words_of_bytes (l : list Z) : list Z :=
  match l with
  | b0 :: b1 :: b2 :: b3 :: rest =>
      (Z.shiftl b0 24 + Z.shiftl b1 16 + Z.shiftl b2 8 + b3) :: words_of_bytes rest
  | _ => []
  end.

Fixpoint blocks (fuel : nat) (ws : list Z) : list (list Z) :=
  match fuel, ws with
  | O, _ | _, [] => []
  | S fuel', _ => firstn 16 ws :: blocks fuel' (skipn 16 ws)
  end.

(** Message schedule: sixteen words of the block, extended to sixty-four. *)
Fixpoint extend (n : nat) (w : list Z) : list Z :=
  match n with
  | O => w
  | S n' =>
      let t := length w in
      let at_back (k : nat) := nth (t - k) w 0 in
      extend n'
        (w ++ [add32 (add32 (small_sigma1 (at_back 2%nat)) (at_back 7%nat))
                     (add32 (small_sigma0 (at_back 15%nat)) (at_back 16%nat))])
  end.

Definition round (r : regs) (kw : Z * Z) : regs :=
  let t1 := add32 (add32 (add32 (rh r) (big_sigma1 (re r)))
                         (add32 (choose (re r) (rf r) (rg r)) (fst kw))) (snd kw) in
  let t2 := add32 (big_sigma0 (ra r)) (majority (ra r) (rb r) (rc r)) in
  mkRegs (add32 t1 t2) (ra r) (rb r) (rc r) (add32 (rd r) t1) (re r) (rf r) (rg r).

Definition compress (h : regs) (block : list Z) : regs :=
  let r := fold_left round (combine round_constants (extend 48 block)) h in
  mkRegs (add32 (ra h) (ra r)) (add32 (rb h) (rb r)) (add32 (rc h) (rc r))
         (add32 (rd h) (rd r)) (add32 (re h) (re r)) (add32 (rf h) (rf r))
         (add32 (rg h) (rg r)) (add32 (rh h) (rh r)).

Definition sha256 (msg : list Z) : regs :=
  let ws := words_of_bytes (pad msg) in
  fold_left compress (blocks (length ws) ws) initial_hash.

Definition hex_digit (n : Z) : ascii :=
  match n with
  | 0 => "0" | 1 => "1" | 2 => "2" | 3 => "3" | 4 => "4" | 5 => "5"
  | 6 => "6" | 7 => "7" | 8 => "8" | 9 => "9" | 10 => "a" | 11 => "b"
  | 12 => "c" | 13 => "d" | 14 => "e" | _ => "f"
  end%char.

Definition nibble (w i : Z) : ascii := hex_digit (Z.land (Z.shiftr w (4 * i)) 15).

Definition hex_word (w : Z) (tail : string) : string :=
  String (nibble w 7) (String (nibble w 6) (String (nibble w 5) (String (nibble w 4)
  (String (nibble w 3) (String (nibble w 2) (String (nibble w 1) (String (nibble w 0)
  tail))))))).

(** [hasher.hexdigest()]: sixty-four lower-case hexadecimal digits. *)
Definition hexdigest (r : regs) : string :=
  hex_word (ra r) (hex_word (rb r) (hex_word (rc r) (hex_word (rd r)
  (hex_word (re r) (hex_word (rf r) (hex_word (rg r) (hex_word (rh r) ""))))))).

End hashlib.

(* ===================================================================== *)
(** ** jwt: signed tokens                                                  *)
(* ===================================================================== *)

(** PyJWT is a library outside the repository; its tokens are modelled
    symbolically.  A token is either a text that is not a well-formed
    compact JWS, or a header (the algorithm), a claims set and the key the
    signature was computed with.  A signature verifies exactly when it was
    made with the verifying key: forging one without the key is not
    modelled, nor is the padding of HMAC keys, under which keys that
    differ by trailing zero bytes verify alike; what is proved of
    rejected tokens is stated on the outcome of [decode].  The claims set
    holds the text-valued claims and the registered numeric [exp] claim
    (seconds since the epoch); the claim named by
    [AUTH_ACCESS_TOKEN_USERNAME_FIELD] is a text claim.

    This is the library under the settings of [usable_settings] below: an
    HMAC algorithm, a secret that the algorithm accepts, a subject field
    that is none of the claims the library validates by itself.  Under
    other settings [encode] and [decode] raise errors of their own
    ([InvalidKeyError], [InvalidAudienceError], ...), and an expiry
    outside the years of [datetime] raises [OverflowError] before a token
    is made; these are not modelled, and what is proved of issued tokens
    assumes [usable_settings] and [issues_tokens]. *)
Module jwt.

Record claims : Type := mkClaims {
  text_claims : gmap string string;
  exp : option Z
}.

Inductive token : Type :=
| Malformed (raw : string)
| Signed (algorithm : string) (payload : claims) (signing_key : string).

(** Subclasses of [jwt.InvalidTokenError] that [jwt.decode] raises. *)
Inductive InvalidTokenError : Type :=
| DecodeError
| InvalidAlgorithmError
| InvalidSignatureError
| ExpiredSignatureError.

Definition encode (payload : claims) (key algorithm : string) : token :=
  Signed algorithm payload key.

(** [jwt.decode(token, key, algorithms=...)] evaluated at the instant
    [now]: the algorithm must be an accepted one, the signature must
    verify, and an [exp] claim, when present, must lie in the future
    ([exp <= now] is expired). *)
Definition decode (tok : token) (key : string) (algorithms : list string) (now : Z)
  : InvalidTokenError + claims :=
  match tok with
  | Malformed _ => inl DecodeError
  | Signed alg payload signing_key =>
      if negb (bool_decide (alg ∈ algorithms)) then inl InvalidAlgorithmError
      else if negb (bool_decide (signing_key = key)) then inl InvalidSignatureError
      else match exp payload with
           | Some e => if (e <=? now)%Z then inl ExpiredSignatureError else inr payload
           | None => inr payload
           end
  end.

(** [payload.get(field)] *)
Definition get (payload : claims) (field : string) : option string :=
  text_claims payload !! field.

End jwt.

(* ===================================================================== *)
(** ** settings.py                                                         *)
(* ===================================================================== *)

Record Settings : Type := mkSettings {
  AUTH_SECRET_KEY : string;
  AUTH_PASSWORD_SALT : string;
  AUTH_HASH_ALGORITHM : string;
  AUTH_ACCESS_TOKEN_EXPIRE_MINUTES : Z;
  AUTH_ACCESS_TOKEN_USERNAME_FIELD : string
}.

(** The two secrets have no default; the other fields do. *)
Definition default_settings (secret_key password_salt : string) : Settings :=
  mkSettings secret_key password_salt "HS256" (60 * 24) "sub".

(* ===================================================================== *)
(** ** domain/user/dtos.py, infra/user/models.py, domain/user/errors.py    *)
(* ===================================================================== *)

Module CreateUserDTO.
Record t : Type := mk { username : string; password : string }.
End CreateUserDTO.

Module LoginUserDTO.
Record t : Type := mk { username : string; password : string }.
End LoginUserDTO.

Module UserDTO.
Record t : Type := mk { username : string; password_hash : string }.
End UserDTO.

Module UserModel.
Record t : Type := mk { username : string; password_hash : string }.
End UserModel.

(** Every exception class the modelled code raises or catches. *)
Inductive Exception : Type :=
| IntegrityError
| NoResultFound
| DBAPIError
| InvalidTokenError (kind : jwt.InvalidTokenError)
| UserAlreadyExistsError
| UserDoesNotExistError
| InvalidPasswordError
| UnAuthorizedUserError
| HTTPException (status_code : Z) (detail : string) (headers : list (string * string)).

(* ===================================================================== *)
(** ** Coroutines as state passing with exceptions                         *)
(* ===================================================================== *)

Inductive outcome (A : Type) : Type :=
| Return (a : A)
| Raise (e : Exception).
Arguments Return {A} a.
Arguments Raise {A} e.

Definition M (S A : Type) : Type := S -> outcome A * S.

Definition ret {S A : Type} (a : A) : M S A := fun s => (Return a, s).

Definition raise {S A : Type} (e : Exception) : M S A := fun s => (Raise e, s).

Definition bind {S A B : Type} (m : M S A) (k : A -> M S B) : M S B :=
  fun s => match m s with
           | (Return a, s') => k a s'
           | (Raise e, s') => (Raise e, s')
           end.

(** [try: m  except ...: handler]: [handler e = None] when no clause
    matches [e], which then propagates. *)
Definition try_except {S A : Type} (m : M S A) (handler : Exception -> option (M S A))
  : M S A :=
  fun s => match m s with
           | (Return a, s') => (Return a, s')
           | (Raise e, s') =>
               match handler e with
               | Some h => h s'
               | None => (Raise e, s')
               end
           end.

Declare Scope coroutine_scope.
Delimit Scope coroutine_scope with coroutine.
Notation "'let*' x ':=' m 'in' k" := (bind m (fun x => k))
  (at level 10, x name, m at level 100, k at level 200) : coroutine_scope.
Notation "m ';;' k" := (bind m (fun _ => k))
  (at level 100, k at level 200, right associativity) : coroutine_scope.
Local Open Scope coroutine_scope.

(* ===================================================================== *)
(** ** The SQLAlchemy session over the [users] table                       *)
(* ===================================================================== *)

(** What the repository asks of its [AsyncSession], in call order. *)
Inductive Call : Type :=
| GetOne (key : string)
| Merge (key : string)
| Flush
| Rollback
| Commit.

(** Unflushed work of the unit of work: a new row, or a change to a row
    the session loaded. *)
Inductive Pending : Type :=
| Insert (row : UserModel.t)
| Update (row : UserModel.t).

(** The table [users] maps the primary key [username] to [password_hash].
    [committed] is what the database holds durably, [flushed] what the
    open transaction of this session has written and not yet committed,
    [pending] what [merge] has staged for the next flush, and [calls] the
    session calls made so far (most recent last). *)
Record Session : Type := mkSession {
  committed : gmap string string;
  flushed : gmap string string;
  pending : list Pending;
  calls : list Call
}.

(** Rows this session reads: its own writes over the committed ones. *)
Definition visible (s : Session) : gmap string string := flushed s ∪ committed s.

Definition new_session (database : gmap string string) : Session :=
  mkSession database ∅ [] [].

Definition record_call (c : Call) (s : Session) : Session :=
  mkSession (committed s) (flushed s) (pending s) (calls s ++ [c]).

Definition called (c : Call) : M Session unit :=
  fun s => (Return tt, record_call c s).

(** While a coroutine is suspended at an [await], other transactions may
    commit rows; [elsewhere rows] is such a step of the environment. *)
Definition elsewhere (rows : gmap string string) : M Session unit :=
  fun s => (Return tt, mkSession (rows ∪ committed s) (flushed s) (pending s) (calls s)).

(** The session calls on a table that takes every text as a key and as
    a value: the database refuses a write for a duplicate key only.
    [postgres], further down, adds the statements that PostgreSQL
    refuses. *)
Module session.

(** [session.get_one(model, entity_id)] *)
Definition get_one (entity_id : string) : M Session UserModel.t :=
  called (GetOne entity_id) ;;
  fun s => match visible s !! entity_id with
           | Some h => (Return (UserModel.mk entity_id h), s)
           | None => (Raise NoResultFound, s)
           end.

(** [session.merge(entity)]: load the row with the entity's primary key;
    copy the entity's state onto it when it exists, otherwise stage the
    entity as a new row. *)
Definition merge (entity : UserModel.t) : M Session UserModel.t :=
  called (Merge (UserModel.username entity)) ;;
  fun s =>
    let staged :=
      match visible s !! UserModel.username entity with
      | None => [Insert entity]
      | Some h =>
          if bool_decide (h = UserModel.password_hash entity) then [] else [Update entity]
      end in
    (Return entity, mkSession (committed s) (flushed s) (pending s ++ staged) (calls s)).

(** One staged write reaching the database inside the open transaction:
    an insert of a key that is already there violates the primary key. *)
Definition write (p : Pending) : M Session unit :=
  fun s =>
    match p with
    | Insert row =>
        match visible s !! UserModel.username row with
        | Some _ => (Raise IntegrityError, s)
        | None =>
            (Return tt,
             mkSession (committed s)
               (<[UserModel.username row := UserModel.password_hash row]> (flushed s))
               (pending s) (calls s))
        end
    | Update row =>
        (Return tt,
         mkSession (committed s)
           (<[UserModel.username row := UserModel.password_hash row]> (flushed s))
           (pending s) (calls s))
    end.

Fixpoint write_all (ps : list Pending) : M Session unit :=
  match ps with
  | [] => ret tt
  | p :: ps' => write p ;; write_all ps'
  end.

(** [session.flush()] *)
Definition flush : M Session unit :=
  called Flush ;;
  fun s =>
    write_all (pending s) (mkSession (committed s) (flushed s) [] (calls s)).

(** [session.rollback()]: the whole open transaction is discarded. *)
Definition rollback : M Session unit :=
  called Rollback ;;
  fun s => (Return tt, mkSession (committed s) ∅ [] (calls s)).

(** [session.commit()]: flush, then make the transaction durable. *)
Definition commit : M Session unit :=
  called Commit ;;
  fun s =>
    match write_all (pending s) (mkSession (committed s) (flushed s) [] (calls s)) with
    | (Return _, s') =>
        (Return tt, mkSession (flushed s' ∪ committed s') ∅ [] (calls s'))
    | (Raise e, s') => (Raise e, s')
    end.

End session.

(** The methods of an [AsyncSession] the repositories and the request
    scope call. *)
Module AsyncSession.
Record t : Type := mk {
  get_one : string -> M Session UserModel.t;
  merge : UserModel.t -> M Session UserModel.t;
  flush : M Session unit;
  rollback : M Session unit;
  commit : M Session unit
}.
End AsyncSession.

(** A session on a table that takes every text as a key and as a value. *)
Definition table_session : AsyncSession.t :=
  AsyncSession.mk session.get_one session.merge session.flush session.rollback
    session.commit.

(** PostgreSQL has no text value with a zero byte: a statement with such
    a parameter fails in the driver, and the session raises [DBAPIError]. *)
Definition has_nul (text : string) : bool :=
  existsb (fun c => bool_decide (c = Ascii.zero)) (list_ascii_of_string text).

(** A session on the PostgreSQL table of infra/user/models.py.  The
    primary key is indexed by a B-tree whose rows have a maximal size;
    which keys exceed it after the server's compression is left to
    [index_row_too_large].  A statement the server refuses raises
    [DBAPIError] where the statement is sent: the SELECT of [get_one]
    and of [merge], the INSERT or UPDATE of [flush]. *)
Module postgres.
Section postgres.

Variable index_row_too_large : string -> bool.

Definition get_one (entity_id : string) : M Session UserModel.t :=
  if has_nul entity_id
  then called (GetOne entity_id) ;; raise DBAPIError
  else session.get_one entity_id.

Definition merge (entity : UserModel.t) : M Session UserModel.t :=
  if has_nul (UserModel.username entity)
  then called (Merge (UserModel.username entity)) ;; raise DBAPIError
  else session.merge entity.

Definition refused (p : Pending) : bool :=
  match p with
  | Insert row =>
      has_nul (UserModel.username row) || has_nul (UserModel.password_hash row)
      || index_row_too_large (UserModel.username row)
  | Update row =>
      has_nul (UserModel.username row) || has_nul (UserModel.password_hash row)
  end.

Definition write (p : Pending) : M Session unit :=
  if refused p then raise DBAPIError else session.write p.

Fixpoint write_all (ps : list Pending) : M Session unit :=
  match ps with
  | [] => ret tt
  | p :: ps' => write p ;; write_all ps'
  end.

Definition flush : M Session unit :=
  called Flush ;;
  fun s =>
    write_all (pending s) (mkSession (committed s) (flushed s) [] (calls s)).

Definition commit : M Session unit :=
  called Commit ;;
  fun s =>
    match write_all (pending s) (mkSession (committed s) (flushed s) [] (calls s)) with
    | (Return _, s') =>
        (Return tt, mkSession (flushed s' ∪ committed s') ∅ [] (calls s'))
    | (Raise e, s') => (Raise e, s')
    end.

End postgres.
End postgres.

Definition postgres_session (index_row_too_large : string -> bool) : AsyncSession.t :=
  AsyncSession.mk postgres.get_one postgres.merge
    (postgres.flush index_row_too_large) session.rollback
    (postgres.commit index_row_too_large).

(** infra/db.py, [get_async_session]: the session is committed when the
    request body returns, rolled back when it raises. *)
Definition get_async_session_on {A : Type} (_session : AsyncSession.t)
  (request : M Session A) : M Session A :=
  try_except
    (let* response := request in
     AsyncSession.commit _session ;;
     ret response)
    (fun e => Some (AsyncSession.rollback _session ;; raise e)).

Definition get_async_session {A : Type} (request : M Session A) : M Session A :=
  get_async_session_on table_session request.

(* ===================================================================== *)
(** ** infra/base_repository.py and infra/user/repos.py                    *)
(* ===================================================================== *)

Module BaseRepository.
Section BaseRepository.

Context {DTO : Type}.
Variable _session : AsyncSession.t.
Variable map_model_to_dto : UserModel.t -> DTO.
Variable map_dto_to_model : DTO -> UserModel.t.
Variable already_exists_exception_class : Exception.

Definition get_by_id (entity_id : string) : M Session (option DTO) :=
  try_except
    (let* entity := AsyncSession.get_one _session entity_id in
     ret (Some (map_model_to_dto entity)))
    (fun e => match e with
              | NoResultFound => Some (ret None)
              | _ => None
              end).

(** [create], with the rows that other transactions commit while the
    coroutine is suspended between its statements: [before_merge]
    after the existence check, [before_flush] after the merge. *)
Definition create (before_merge before_flush : gmap string string) (dto : DTO)
  : M Session DTO :=
  let entity := map_dto_to_model dto in
  let* existed := get_by_id (UserModel.username entity) in
  match existed with
  | Some _ => raise already_exists_exception_class
  | None =>
      elsewhere before_merge ;;
      let* entity := AsyncSession.merge _session entity in
      elsewhere before_flush ;;
      try_except
        (AsyncSession.flush _session ;;
         ret (map_model_to_dto entity))
        (fun e => match e with
                  | IntegrityError =>
                      Some (AsyncSession.rollback _session ;;
                            raise already_exists_exception_class)
                  | _ => None
                  end)
  end.

End BaseRepository.
End BaseRepository.

(** domain/user/repos.py: the protocol the aggregate is written against. *)
Module IUserRepo.
Class t (S : Type) : Type := mk {
  create : UserDTO.t -> M S UserDTO.t;
  find_by_username : string -> M S (option UserDTO.t)
}.
End IUserRepo.

Module UserRepository.

Definition map_dto_to_model (dto : UserDTO.t) : UserModel.t :=
  UserModel.mk (UserDTO.username dto) (UserDTO.password_hash dto).

Definition map_model_to_dto (model : UserModel.t) : UserDTO.t :=
  UserDTO.mk (UserModel.username model) (UserModel.password_hash model).

(** The repository of a given session. *)
Section UserRepository.

Variable _session : AsyncSession.t.

Definition find_by_username_on (username : string) : M Session (option UserDTO.t) :=
  BaseRepository.get_by_id _session map_model_to_dto username.

Definition create_on (before_merge before_flush : gmap string string) (dto : UserDTO.t)
  : M Session UserDTO.t :=
  BaseRepository.create _session map_model_to_dto map_dto_to_model UserAlreadyExistsError
    before_merge before_flush dto.

Definition repo_on : IUserRepo.t Session :=
  IUserRepo.mk Session (create_on ∅ ∅) find_by_username_on.

End UserRepository.

(** The repository of a session on a table that takes every key. *)
Definition find_by_username (username : string) : M Session (option UserDTO.t) :=
  find_by_username_on table_session username.

Definition create (before_merge before_flush : gmap string string) (dto : UserDTO.t)
  : M Session UserDTO.t :=
  create_on table_session before_merge before_flush dto.

(** The repository of a session that no other transaction interferes with. *)
#[export] Instance repo : IUserRepo.t Session :=
  IUserRepo.mk Session (create ∅ ∅) find_by_username.

(** The same on the PostgreSQL table. *)
Definition postgres_repo (index_row_too_large : string -> bool) : IUserRepo.t Session :=
  repo_on (postgres_session index_row_too_large).

End UserRepository.

(* ===================================================================== *)
(** ** domain/user/user.py: the [User] aggregate                           *)
(* ===================================================================== *)

Module User.
Section User.

Variable settings : Settings.
Context {S : Type} (_repo : IUserRepo.t S).

Definition _get_password_hash (password : string) : string :=
  let pwd_bytes := hashlib.bytes_of password in
  let salt := hashlib.bytes_of (AUTH_PASSWORD_SALT settings) in
  hashlib.hexdigest (hashlib.sha256 (pwd_bytes ++ salt)).

Definition _verify_password (password_to_check actual_password_hash : string) : bool :=
  let password_hash_to_check := _get_password_hash password_to_check in
  bool_decide (password_hash_to_check = actual_password_hash).

(** [now] is [datetime.now(UTC)] in whole seconds since the epoch. *)
Definition _create_access_token (now : Z) (username : string) : jwt.token :=
  let access_token_expires_delta := (60 * AUTH_ACCESS_TOKEN_EXPIRE_MINUTES settings)%Z in
  let data :=
    jwt.mkClaims {[ AUTH_ACCESS_TOKEN_USERNAME_FIELD settings := username ]}
                 (Some (now + access_token_expires_delta)%Z) in
  jwt.encode data (AUTH_SECRET_KEY settings) (AUTH_HASH_ALGORITHM settings).

Definition find_by_username (username : string) : M S (option UserDTO.t) :=
  IUserRepo.find_by_username username.

Definition create (create_data : CreateUserDTO.t) : M S UserDTO.t :=
  let* existed_user := find_by_username (CreateUserDTO.username create_data) in
  match existed_user with
  | Some _ => raise UserAlreadyExistsError
  | None =>
      let password_hash := _get_password_hash (CreateUserDTO.password create_data) in
      IUserRepo.create (UserDTO.mk (CreateUserDTO.username create_data) password_hash)
  end.

Definition login (now : Z) (login_data : LoginUserDTO.t) : M S jwt.token :=
  let* user := find_by_username (LoginUserDTO.username login_data) in
  match user with
  | None => raise UserDoesNotExistError
  | Some user =>
      if negb (_verify_password (LoginUserDTO.password login_data)
                                (UserDTO.password_hash user))
      then raise InvalidPasswordError
      else ret (_create_access_token now (LoginUserDTO.username login_data))
  end.

(** [now] is the instant at which [jwt.decode] checks the expiry. *)
Definition get_current (now : Z) (token : jwt.token) : M S UserDTO.t :=
  try_except
    (let* payload :=
       match jwt.decode token (AUTH_SECRET_KEY settings)
                        [AUTH_HASH_ALGORITHM settings] now with
       | inl e => raise (InvalidTokenError e)
       | inr payload => ret payload
       end in
     match jwt.get payload (AUTH_ACCESS_TOKEN_USERNAME_FIELD settings) with
     | None => raise UserDoesNotExistError
     | Some username =>
         if bool_decide (username = "") then raise UserDoesNotExistError
         else
           let* user := find_by_username username in
           match user with
           | None => raise UserDoesNotExistError
           | Some user => ret user
           end
     end)
    (fun e => match e with
              | InvalidTokenError _ => Some (raise UserDoesNotExistError)
              | _ => None
              end).

End User.
End User.

(* ===================================================================== *)
(** ** app/auth/handlers.py and app/dependencies/auth.py                   *)
(* ===================================================================== *)

Module schemas.
Record RegistrationRequest : Type := mkRegistrationRequest {
  reg_username : string; reg_password : string }.
Record RegistrationResponse : Type := mkRegistrationResponse {
  registered_username : string }.
Record LoginRequest : Type := mkLoginRequest {
  login_username : string; login_password : string }.
Record LoginResponse : Type := mkLoginResponse {
  access_token : jwt.token; token_type : string }.
Record CurrentUserResponse : Type := mkCurrentUserResponse {
  current_username : string }.
End schemas.

(** [fastapi.security.OAuth2PasswordRequestForm]: the form fields read. *)
Record OAuth2PasswordRequestForm : Type := mkOAuth2PasswordRequestForm {
  form_username : string; form_password : string }.

Module handlers.
Section handlers.

Variable settings : Settings.
(** [user_aggregate_di] builds [User(repo=repo)]: the aggregate a
    handler receives is given by the repository it wraps. *)
Context {S : Type} (user_aggregate : IUserRepo.t S).

Definition register_user (user_data : schemas.RegistrationRequest)
  : M S schemas.RegistrationResponse :=
  try_except
    (let* user := User.create settings user_aggregate
                    (CreateUserDTO.mk (schemas.reg_username user_data)
                                      (schemas.reg_password user_data)) in
     ret (schemas.mkRegistrationResponse (UserDTO.username user)))
    (fun e => match e with
              | UserAlreadyExistsError =>
                  Some (raise (HTTPException 400
                                 "User with this username already exists." []))
              | _ => None
              end).

Definition oauth2_login (now : Z) (form_data : OAuth2PasswordRequestForm)
  : M S schemas.LoginResponse :=
  try_except
    (let* token := User.login settings user_aggregate now
                     (LoginUserDTO.mk (form_username form_data)
                                      (form_password form_data)) in
     ret (schemas.mkLoginResponse token "bearer"))
    (fun e => match e with
              | UserAlreadyExistsError =>
                  Some (raise (HTTPException 400
                                 "User with this username does not exist." []))
              | InvalidPasswordError =>
                  Some (raise (HTTPException 401 "Incorrect username or password"
                                 [("WWW-Authenticate", "Bearer")]))
              | _ => None
              end).

Definition json_login (now : Z) (login_data : schemas.LoginRequest)
  : M S schemas.LoginResponse :=
  try_except
    (let* token := User.login settings user_aggregate now
                     (LoginUserDTO.mk (schemas.login_username login_data)
                                      (schemas.login_password login_data)) in
     ret (schemas.mkLoginResponse token "bearer"))
    (fun e => match e with
              | UserAlreadyExistsError =>
                  Some (raise (HTTPException 400
                                 "User with this username does not exist." []))
              | InvalidPasswordError =>
                  Some (raise (HTTPException 401 "Incorrect username or password"
                                 [("WWW-Authenticate", "Bearer")]))
              | _ => None
              end).

(** app/dependencies/auth.py *)
Definition current_user_di (now : Z) (token : jwt.token) : M S UserDTO.t :=
  try_except
    (User.get_current settings user_aggregate now token)
    (fun e => match e with
              | UserDoesNotExistError =>
                  Some (raise (HTTPException 401 "User is not authenticated." []))
              | _ => None
              end).

Definition get_current_user (current_user : UserDTO.t) : schemas.CurrentUserResponse :=
  schemas.mkCurrentUserResponse (UserDTO.username current_user).

End handlers.
End handlers.

(* ===================================================================== *)
(** ** Histories of one session                                            *)
(* ===================================================================== *)

(** The operations of the aggregate, and the commit of the session's
    owner, as steps on a session that no other transaction disturbs. *)
Inductive Operation : Type :=
| Register (create_data : CreateUserDTO.t)
| Login (now : Z) (login_data : LoginUserDTO.t)
| ResolveCurrentUser (now : Z) (token : jwt.token)
| CommitSession.

Definition perform (settings : Settings) (op : Operation) (s : Session) : Session :=
  match op with
  | Register create_data =>
      snd (User.create settings UserRepository.repo create_data s)
  | Login now login_data =>
      snd (User.login settings UserRepository.repo now login_data s)
  | ResolveCurrentUser now token =>
      snd (User.get_current settings UserRepository.repo now token s)
  | CommitSession => snd (session.commit s)
  end.

(** Sessions reached from an empty [users] table by operations that all
    satisfy [allowed]. *)
Inductive reachable (settings : Settings) (allowed : Operation -> Prop)
  : Session -> Prop :=
| reachable_new : reachable settings allowed (new_session ∅)
| reachable_step (s : Session) (op : Operation) :
    reachable settings allowed s ->
    allowed op ->
    reachable settings allowed (perform settings op s).

(** Registrations name a non-empty username; the other steps are free. *)
Definition names_a_user (op : Operation) : Prop :=
  match op with
  | Register create_data => CreateUserDTO.username create_data <> ""
  | _ => True
  end.

(** A session call that only reads. *)
Definition is_read (c : Call) : Prop :=
  match c with
  | GetOne _ => True
  | _ => False
  end.

Definition is_hex_digit (c : ascii) : bool :=
  bool_decide (c ∈ list_ascii_of_string "0123456789abcdef").

(** A configuration for the worked examples. *)
Definition example_settings : Settings := default_settings "k3y" "s@lt".

(** The username [a\x00b]: three characters, the second the zero byte. *)
Definition name_with_nul : string :=
  String "a" (String Ascii.zero (String "b" EmptyString)).

(* ===================================================================== *)
(** ** Settings under which a token is issued and read back                *)
(* ===================================================================== *)

(** The algorithms with which jwt signs and verifies under a shared
    secret. *)
Definition hmac_algorithms : list string := ["HS256"; "HS384"; "HS512"].

(** These algorithms refuse, with [InvalidKeyError], which is no
    [InvalidTokenError], a secret that is a key in PEM or SSH format; the
    markers of those formats all have a hyphen.  A secret that is not
    empty and has no hyphen is none of them. *)
Definition plain_secret (key : string) : bool :=
  negb (bool_decide (key = ""))
  && forallb (fun c => negb (bool_decide (c = "-"%char))) (list_ascii_of_string key).

(** The claims to which [jwt.decode] gives a meaning of its own when the
    caller asks for nothing: [exp], [nbf] and [iat] are instants, [aud]
    must be an audience the caller names. *)
Definition validated_claims : list string := ["exp"; "nbf"; "iat"; "aud"].

Definition usable_settings (settings : Settings) : bool :=
  bool_decide (AUTH_HASH_ALGORITHM settings ∈ hmac_algorithms)
  && plain_secret (AUTH_SECRET_KEY settings)
  && negb (bool_decide (AUTH_ACCESS_TOKEN_USERNAME_FIELD settings ∈ validated_claims)).

(** The instants of [datetime]: the years 1 to 9999, in seconds since
    the epoch.  Arithmetic that leaves them raises [OverflowError]. *)
Definition datetime_min : Z := -62135596800.
Definition datetime_max : Z := 253402300799.

Definition is_datetime (t : Z) : bool :=
  (datetime_min <=? t)%Z && (t <=? datetime_max)%Z.

(** [_create_access_token] at [now] computes the expiry and signs. *)
Definition issues_tokens (settings : Settings) (now : Z) : bool :=
  usable_settings settings
  && is_datetime now
  && is_datetime (now + 60 * AUTH_ACCESS_TOKEN_EXPIRE_MINUTES settings).

(* ===================================================================== *)
(** ** infra/base_repository.py: update and delete                         *)
(* ===================================================================== *)

(** [UserModel.__table__.columns], each with [getattr(db_model, name)]. *)
Definition table_columns (db_model : UserModel.t) : list (string * string) :=
  [("username", UserModel.username db_model);
   ("password_hash", UserModel.password_hash db_model)].

Module BaseRepositoryWrites.

(** The [KeyError] of a [del] on a dictionary without the key. *)
Inductive KeyError : Type := MkKeyError (key : string).

(** A dictionary comprehension over [items]: a later item replaces an
    earlier one with the same key. *)
Definition dict_of (items : list (string * string)) : gmap string string :=
  foldl (fun values item => <[fst item := snd item]> values) ∅ items.

(** [del values[key]] *)
Definition del (key : string) (values : gmap string string)
  : KeyError + gmap string string :=
  match values !! key with
  | Some _ => inr (delete key values)
  | None => inl (MkKeyError key)
  end.

(** How a call ends when a [KeyError] is among the exceptions it raises. *)
Inductive ending (A : Type) : Type :=
| Returns (a : A)
| Raises (e : Exception)
| RaisesKeyError (key : string).
Arguments Returns {A} a.
Arguments Raises {A} e.
Arguments RaisesKeyError {A} key.

Section BaseRepositoryWrites.

Context {DBModel DTO : Type}.
Variable columns : DBModel -> list (string * string).
Variable id_field : string.
Variable map_dto_to_model : DTO -> DBModel.
Variable not_found_exception_class : Exception.

(** [session.execute(sa_update(model).where(pk == getattr(entity,
    id_field)).values( **update_values))], giving [resp.rowcount]; what
    the statement does to the session is left to the caller. *)
Variable execute_update : DBModel -> gmap string string -> M Session nat.

(** [session.delete(entity)], likewise. *)
Variable session_delete : UserModel.t -> M Session unit.

Definition _get_update_values_dict (db_model : DBModel)
  : KeyError + gmap string string :=
  let values := dict_of (columns db_model) in
  match del id_field values with
  | inl e => inl e
  | inr values => del "creation_date" values
  end.

Definition update (dto : DTO) (s : Session) : ending DTO * Session :=
  let entity := map_dto_to_model dto in
  match _get_update_values_dict entity with
  | inl (MkKeyError key) => (RaisesKeyError key, s)
  | inr update_values =>
      match
        (let* resp := execute_update entity update_values in
         session.flush ;;
         if Nat.eqb resp 0 then raise not_found_exception_class else ret dto) s
      with
      | (Return a, s') => (Returns a, s')
      | (Raise e, s') => (Raises e, s')
      end
  end.

Definition delete (entity_id : string) : M Session unit :=
  try_except
    (let* entity := session.get_one entity_id in
     session_delete entity ;;
     session.flush)
    (fun e => match e with
              | NoResultFound => Some (raise not_found_exception_class)
              | _ => None
              end).

End BaseRepositoryWrites.
End BaseRepositoryWrites.

(** [UserRepository] inherits [update] and [delete] with [id_field =
    "username"] and [UserDoesNotExistError]. *)
Definition UserRepository_update
  (execute_update : UserModel.t -> gmap string string -> M Session nat)
  (dto : UserDTO.t) : Session -> BaseRepositoryWrites.ending UserDTO.t * Session :=
  BaseRepositoryWrites.update table_columns "username" UserRepository.map_dto_to_model
    UserDoesNotExistError execute_update dto.

Definition UserRepository_delete
  (session_delete : UserModel.t -> M Session unit) (entity_id : string)
  : M Session unit :=
  BaseRepositoryWrites.delete UserDoesNotExistError session_delete entity_id.

(** A history: operations performed one after the other. *)
Definition run_history (settings : Settings) (ops : list Operation) (s : Session)
  : Session :=
  foldl (fun s op => perform settings op s) s ops.

(* ===================================================================== *)
(** * Properties                                                           *)
(* ===================================================================== *)

(** Unfold the coroutine combinators and the session calls, leaving the
    table lookups and [session.write_all] in place. *)
Tactic Notation "run_coroutine" :=
  cbv beta iota zeta delta
    [bind ret raise try_except called elsewhere
     session.get_one session.merge session.flush session.rollback session.commit
     AsyncSession.get_one AsyncSession.merge AsyncSession.flush AsyncSession.rollback
     AsyncSession.commit table_session
     BaseRepository.get_by_id BaseRepository.create get_async_session
     get_async_session_on].

Tactic Notation "run_coroutine" "in" hyp(H) :=
  cbv beta iota zeta delta
    [bind ret raise try_except called elsewhere
     session.get_one session.merge session.flush session.rollback session.commit
     AsyncSession.get_one AsyncSession.merge AsyncSession.flush AsyncSession.rollback
     AsyncSession.commit table_session
     BaseRepository.get_by_id BaseRepository.create get_async_session
     get_async_session_on] in H.

(** ** hashlib against the published test vectors *)

Example sha256_of_the_empty_text :
  hashlib.hexdigest (hashlib.sha256 (hashlib.bytes_of "")) =
  "e3b0c44298fc1c149afbf4c8996fb92427ae41e4649b934ca495991b7852b855".
Proof. vm_compute. reflexivity. Qed.

Example sha256_of_abc :
  hashlib.hexdigest (hashlib.sha256 (hashlib.bytes_of "abc")) =
  "ba7816bf8f01cfea414140de5dae2223b00361a396177a9cb410ff61f20015ad".
Proof. vm_compute. reflexivity. Qed.

(** One block is not enough from 56 bytes on; two are not from 120 on. *)
Example sha256_of_56_bytes :
  hashlib.hexdigest (hashlib.sha256 (repeat 97 56)) =
  "b35439a4ac6f0948b6d6f9e3c6af0f5f590ce20f1bde7090ef7970686ec6738a".
Proof. vm_compute. reflexivity. Qed.

Example sha256_of_120_bytes :
  hashlib.hexdigest (hashlib.sha256 (repeat 97 120)) =
  "2f3d335432c70b580af0e8e1b3674a7c020d683aa5f73aaaedfdc55af904c21c".
Proof. vm_compute. reflexivity. Qed.

Lemma hexdigest_length (r : hashlib.regs) :
  String.length (hashlib.hexdigest r) = 64%nat.
Proof. destruct r. reflexivity. Qed.

Lemma hex_digit_is_hex (n : Z) : is_hex_digit (hashlib.hex_digit n) = true.
Proof.
  unfold hashlib.hex_digit.
  destruct n as [|p|p]; try reflexivity.
  do 4 (destruct p as [p|p|]; try reflexivity).
Qed.

Lemma hexdigest_digits (r : hashlib.regs) :
  Forall (fun c => is_hex_digit c = true) (list_ascii_of_string (hashlib.hexdigest r)).
Proof.
  destruct r. cbn [hashlib.hexdigest hashlib.hex_word list_ascii_of_string
                   hashlib.ra hashlib.rb hashlib.rc hashlib.rd
                   hashlib.re hashlib.rf hashlib.rg hashlib.rh].
  repeat (apply Forall_cons; split; [apply hex_digit_is_hex|]).
  apply Forall_nil_2.
Qed.

(** ** The session and the repository *)

Lemma write_all_frame (ps : list Pending) :
  forall (s : Session) (o : outcome unit) (s' : Session),
    session.write_all ps s = (o, s') ->
    committed s' = committed s /\ calls s' = calls s /\ pending s' = pending s /\
    (o = Return tt \/ o = Raise IntegrityError).
Proof.
  induction ps as [|p ps IH]; intros s o s' H.
  - inversion H; subst. auto.
  - simpl in H. unfold bind in H.
    destruct p as [row|row]; simpl in H.
    + destruct (visible s !! UserModel.username row).
      * inversion H; subst; auto.
      * apply IH in H. simpl in H. exact H.
    + apply IH in H. simpl in H. exact H.
Qed.

Section RepositoryFacts.

Context {DTO : Type}.
Variable f : UserModel.t -> DTO.
Variable g : DTO -> UserModel.t.
Variable exc : Exception.

(** [get_by_id] reads the visible row and changes nothing but the log. *)
Lemma get_by_id_eq (k : string) (s : Session) :
  BaseRepository.get_by_id table_session f k s =
  (Return (match visible s !! k with
           | Some h => Some (f (UserModel.mk k h))
           | None => None
           end),
   record_call (GetOne k) s).
Proof.
  run_coroutine.
  change (visible (record_call (GetOne k) s)) with (visible s).
  destruct (visible s !! k); reflexivity.
Qed.

(** The existence check stops [create] before any write. *)
Lemma create_existing (r1 r2 : gmap string string) (dto : DTO) (s : Session) (h : string) :
  visible s !! UserModel.username (g dto) = Some h ->
  BaseRepository.create table_session f g exc r1 r2 dto s =
  (Raise exc, record_call (GetOne (UserModel.username (g dto))) s).
Proof.
  intros Hk. unfold BaseRepository.create. unfold bind at 1.
  rewrite get_by_id_eq, Hk. reflexivity.
Qed.

(** Undisturbed, on an idle session, [create] of a fresh key inserts it. *)
Lemma create_fresh (dto : DTO) (s : Session) :
  visible s !! UserModel.username (g dto) = None ->
  pending s = [] ->
  BaseRepository.create table_session f g exc ∅ ∅ dto s =
  (Return (f (g dto)),
   mkSession (committed s)
     (<[UserModel.username (g dto) := UserModel.password_hash (g dto)]> (flushed s))
     []
     (calls s ++ [GetOne (UserModel.username (g dto));
                  Merge (UserModel.username (g dto)); Flush])).
Proof.
  intros Hk Hp. unfold BaseRepository.create. unfold bind at 1.
  rewrite get_by_id_eq, Hk.
  run_coroutine. unfold visible. cbn [committed flushed pending calls record_call].
  rewrite !(left_id_L ∅ (∪)).
  change (flushed s ∪ committed s) with (visible s). rewrite Hk, Hp.
  cbn [app session.write_all].
  unfold bind, session.write, ret, visible. cbn [committed flushed pending calls].
  change (flushed s ∪ committed s) with (visible s). rewrite Hk.
  rewrite <- !app_assoc. reflexivity.
Qed.

(** The two ways [create] fails: at the existence check, or at the
    flush, after which the session has been rolled back. *)
Lemma create_failure (r1 r2 : gmap string string) (dto : DTO)
      (s : Session) (e : Exception) (s' : Session) :
  BaseRepository.create table_session f g exc r1 r2 dto s = (Raise e, s') ->
  e = exc /\
  ((is_Some (visible s !! UserModel.username (g dto)) /\
    s' = record_call (GetOne (UserModel.username (g dto))) s)
   \/
   (visible s !! UserModel.username (g dto) = None /\
    s' = mkSession (r2 ∪ (r1 ∪ committed s)) ∅ []
           (calls s ++ [GetOne (UserModel.username (g dto));
                        Merge (UserModel.username (g dto)); Flush; Rollback]))).
Proof.
  intros H. unfold BaseRepository.create in H. unfold bind at 1 in H.
  rewrite get_by_id_eq in H.
  destruct (visible s !! UserModel.username (g dto)) as [h|] eqn:Hk.
  - inversion H; subst. split; [reflexivity|]. left. split; [eauto|reflexivity].
  - run_coroutine in H. cbn [committed flushed pending calls record_call] in H.
    match type of H with
    | context [session.write_all ?ps ?st] =>
        destruct (session.write_all ps st) as [o s''] eqn:Hw
    end.
    apply write_all_frame in Hw. cbn [committed flushed pending calls] in Hw.
    destruct Hw as (Hc & Hl & Hp & [-> | ->]).
    + discriminate H.
    + inversion H; subst. split; [reflexivity|]. right. split; [reflexivity|].
      rewrite Hc, Hl. rewrite <- !app_assoc. reflexivity.
Qed.

End RepositoryFacts.

(** ** The aggregate over [UserRepository] *)

Section UserFacts.

Variable settings : Settings.

Lemma find_by_username_eq (k : string) (s : Session) :
  User.find_by_username UserRepository.repo k s =
  (Return (UserDTO.mk k <$> visible s !! k), record_call (GetOne k) s).
Proof.
  unfold User.find_by_username. cbn [IUserRepo.find_by_username UserRepository.repo].
  unfold UserRepository.find_by_username, UserRepository.find_by_username_on. rewrite get_by_id_eq.
  destruct (visible s !! k); reflexivity.
Qed.

Lemma user_create_fresh (create_data : CreateUserDTO.t) (s : Session) :
  visible s !! CreateUserDTO.username create_data = None ->
  pending s = [] ->
  User.create settings UserRepository.repo create_data s =
  (Return (UserDTO.mk (CreateUserDTO.username create_data)
             (User._get_password_hash settings (CreateUserDTO.password create_data))),
   mkSession (committed s)
     (<[CreateUserDTO.username create_data :=
          User._get_password_hash settings (CreateUserDTO.password create_data)]>
        (flushed s))
     []
     (calls s ++ [GetOne (CreateUserDTO.username create_data);
                  GetOne (CreateUserDTO.username create_data);
                  Merge (CreateUserDTO.username create_data); Flush])).
Proof.
  intros Hk Hp. unfold User.create. unfold bind at 1.
  rewrite find_by_username_eq, Hk. cbn [fmap option_fmap option_map].
  cbn [IUserRepo.create UserRepository.repo]. unfold UserRepository.create, UserRepository.create_on.
  rewrite create_fresh; [| exact Hk | exact Hp].
  cbn. rewrite <- !app_assoc. reflexivity.
Qed.

Lemma user_create_existing (create_data : CreateUserDTO.t) (s : Session) (h : string) :
  visible s !! CreateUserDTO.username create_data = Some h ->
  User.create settings UserRepository.repo create_data s =
  (Raise UserAlreadyExistsError,
   record_call (GetOne (CreateUserDTO.username create_data)) s).
Proof.
  intros Hk. unfold User.create. unfold bind at 1.
  rewrite find_by_username_eq, Hk. reflexivity.
Qed.

Lemma user_create_returns
      (create_data : CreateUserDTO.t) (s : Session) (u : UserDTO.t) (s' : Session) :
  pending s = [] ->
  User.create settings UserRepository.repo create_data s = (Return u, s') ->
  visible s !! CreateUserDTO.username create_data = None
  /\ u = UserDTO.mk (CreateUserDTO.username create_data)
           (User._get_password_hash settings (CreateUserDTO.password create_data))
  /\ s' = mkSession (committed s)
            (<[CreateUserDTO.username create_data :=
                 User._get_password_hash settings (CreateUserDTO.password create_data)]>
               (flushed s))
            []
            (calls s ++ [GetOne (CreateUserDTO.username create_data);
                         GetOne (CreateUserDTO.username create_data);
                         Merge (CreateUserDTO.username create_data); Flush]).
Proof.
  intros Hidle H.
  destruct (visible s !! CreateUserDTO.username create_data) as [h|] eqn:Hk.
  - rewrite (user_create_existing create_data s h Hk) in H. discriminate H.
  - rewrite (user_create_fresh create_data s Hk Hidle) in H.
    inversion H; subst. auto.
Qed.

Lemma login_eq (now : Z) (login_data : LoginUserDTO.t) (s : Session) :
  User.login settings UserRepository.repo now login_data s =
  (match visible s !! LoginUserDTO.username login_data with
   | None => Raise UserDoesNotExistError
   | Some h =>
       if bool_decide (User._get_password_hash settings
                         (LoginUserDTO.password login_data) = h)
       then Return (User._create_access_token settings now
                      (LoginUserDTO.username login_data))
       else Raise InvalidPasswordError
   end,
   record_call (GetOne (LoginUserDTO.username login_data)) s).
Proof.
  unfold User.login. unfold bind at 1. rewrite find_by_username_eq.
  destruct (visible s !! LoginUserDTO.username login_data) as [h|]; [|reflexivity].
  cbn [fmap option_fmap option_map UserDTO.password_hash].
  unfold User._verify_password.
  destruct (bool_decide _); reflexivity.
Qed.

Lemma get_current_eq (now : Z) (token : jwt.token) (s : Session) :
  User.get_current settings UserRepository.repo now token s =
  match jwt.decode token (AUTH_SECRET_KEY settings)
                   [AUTH_HASH_ALGORITHM settings] now with
  | inl _ => (Raise UserDoesNotExistError, s)
  | inr payload =>
      match jwt.get payload (AUTH_ACCESS_TOKEN_USERNAME_FIELD settings) with
      | None => (Raise UserDoesNotExistError, s)
      | Some username =>
          if bool_decide (username = "") then (Raise UserDoesNotExistError, s)
          else
            (match visible s !! username with
             | Some h => Return (UserDTO.mk username h)
             | None => Raise UserDoesNotExistError
             end,
             record_call (GetOne username) s)
      end
  end.
Proof.
  unfold User.get_current, try_except.
  destruct (jwt.decode _ _ _ _) as [e|payload]; [reflexivity|].
  unfold bind at 1. unfold ret at 1.
  destruct (jwt.get _ _) as [username|]; [|reflexivity].
  destruct (bool_decide (username = "")); [reflexivity|].
  unfold bind. rewrite find_by_username_eq.
  destruct (visible s !! username); reflexivity.
Qed.

(** One step of a history keeps the empty username out of the table
    when a registration, if it is one, names a user. *)
Lemma perform_rows (op : Operation) (s : Session) :
  names_a_user op ->
  committed s !! "" = None /\ flushed s !! "" = None /\ pending s = [] ->
  committed (perform settings op s) !! "" = None
  /\ flushed (perform settings op s) !! "" = None
  /\ pending (perform settings op s) = [].
Proof.
  intros Hop (Hc & Hf & Hp). destruct op as [create_data|now login_data|now token|];
    cbn [perform names_a_user] in *.
  - destruct (visible s !! CreateUserDTO.username create_data) as [h|] eqn:Hk.
    + rewrite (user_create_existing create_data s h Hk). auto.
    + rewrite (user_create_fresh create_data s Hk Hp).
      cbn [snd committed flushed pending].
      split; [exact Hc|]. split; [|reflexivity].
      rewrite lookup_insert_ne by exact Hop. exact Hf.
  - rewrite login_eq. auto.
  - rewrite get_current_eq.
    destruct (jwt.decode _ _ _ _) as [err|payload]; [auto|].
    destruct (jwt.get _ _) as [username|]; [|auto].
    destruct (bool_decide _); auto.
  - unfold session.commit, bind, called. cbn [record_call pending].
    rewrite Hp. cbn [session.write_all ret snd committed flushed pending].
    unfold ret. cbn [snd committed flushed pending].
    split; [|split; [apply lookup_empty|reflexivity]].
    apply lookup_union_None. auto.
Qed.

End UserFacts.

(** ** The session on the PostgreSQL table *)

Lemma is_hex_digit_not_nul (text : string) :
  Forall (fun c => is_hex_digit c = true) (list_ascii_of_string text) ->
  has_nul text = false.
Proof.
  unfold has_nul. induction 1 as [|c cs Hc _ IH]; [reflexivity|].
  cbn [existsb]. rewrite IH, orb_false_r.
  apply bool_decide_eq_false_2. intros ->. discriminate Hc.
Qed.

Lemma password_hash_has_no_nul (settings : Settings) (P : string) :
  has_nul (User._get_password_hash settings P) = false.
Proof. apply is_hex_digit_not_nul, hexdigest_digits. Qed.

Section PostgresFacts.

Variable index_row_too_large : string -> bool.

Lemma postgres_write_all (ps : list Pending) (s : Session) :
  Forall (fun p => postgres.refused index_row_too_large p = false) ps ->
  postgres.write_all index_row_too_large ps s = session.write_all ps s.
Proof.
  intros H. revert s. induction H as [|p ps Hp _ IH]; intros s; [reflexivity|].
  cbn [postgres.write_all session.write_all]. unfold bind, postgres.write.
  rewrite Hp. destruct (session.write p s) as [[[]|e] s1]; [apply IH|reflexivity].
Qed.

Section PostgresRepositoryFacts.

Context {DTO : Type}.
Variable f : UserModel.t -> DTO.
Variable g : DTO -> UserModel.t.
Variable exc : Exception.

Lemma postgres_get_by_id (k : string) (s : Session) :
  BaseRepository.get_by_id (postgres_session index_row_too_large) f k s =
  if has_nul k then (Raise DBAPIError, record_call (GetOne k) s)
  else BaseRepository.get_by_id table_session f k s.
Proof.
  unfold BaseRepository.get_by_id, try_except, bind.
  cbn [AsyncSession.get_one postgres_session table_session]. unfold postgres.get_one.
  destruct (has_nul k); reflexivity.
Qed.

Lemma postgres_create (r1 r2 : gmap string string) (dto : DTO) (s : Session) :
  has_nul (UserModel.username (g dto)) = false ->
  has_nul (UserModel.password_hash (g dto)) = false ->
  index_row_too_large (UserModel.username (g dto)) = false ->
  Forall (fun p => postgres.refused index_row_too_large p = false) (pending s) ->
  BaseRepository.create (postgres_session index_row_too_large) f g exc r1 r2 dto s =
  BaseRepository.create table_session f g exc r1 r2 dto s.
Proof.
  intros Hk Hh Hfit Hp.
  unfold BaseRepository.create, bind. rewrite postgres_get_by_id, Hk.
  destruct (BaseRepository.get_by_id table_session f (UserModel.username (g dto)) s)
    as [[[existed|]|e] s1] eqn:Hget; try reflexivity.
  rewrite get_by_id_eq in Hget. inversion Hget as [[Hnone Hs1]]. clear Hget Hnone.
  unfold elsewhere, try_except.
  cbn [AsyncSession.merge AsyncSession.flush AsyncSession.rollback
       postgres_session table_session].
  unfold postgres.merge. rewrite Hk.
  unfold session.merge, bind, called.
  unfold postgres.flush, session.flush, bind, called.
  cbn [record_call committed flushed pending calls].
  rewrite postgres_write_all; [reflexivity|].
  apply Forall_app. split; [exact Hp|].
  destruct (_ !! _) as [h|].
  - destruct (bool_decide _); [constructor|].
    repeat constructor. cbn [postgres.refused]. rewrite Hk, Hh. reflexivity.
  - repeat constructor. cbn [postgres.refused]. rewrite Hk, Hh, Hfit. reflexivity.
Qed.

Lemma postgres_create_nul (r1 r2 : gmap string string) (dto : DTO) (s : Session) :
  has_nul (UserModel.username (g dto)) = true ->
  BaseRepository.create (postgres_session index_row_too_large) f g exc r1 r2 dto s =
  (Raise DBAPIError, record_call (GetOne (UserModel.username (g dto))) s).
Proof.
  intros Hk. unfold BaseRepository.create, bind. rewrite postgres_get_by_id, Hk.
  reflexivity.
Qed.

End PostgresRepositoryFacts.

Variable settings : Settings.

Lemma postgres_find_by_username (k : string) (s : Session) :
  User.find_by_username (UserRepository.postgres_repo index_row_too_large) k s =
  if has_nul k then (Raise DBAPIError, record_call (GetOne k) s)
  else User.find_by_username UserRepository.repo k s.
Proof.
  unfold User.find_by_username.
  cbn [IUserRepo.find_by_username UserRepository.postgres_repo UserRepository.repo_on
       UserRepository.repo].
  unfold UserRepository.find_by_username, UserRepository.find_by_username_on.
  apply postgres_get_by_id.
Qed.

Lemma postgres_user_create (create_data : CreateUserDTO.t) (s : Session) :
  has_nul (CreateUserDTO.username create_data) = false ->
  index_row_too_large (CreateUserDTO.username create_data) = false ->
  pending s = [] ->
  User.create settings (UserRepository.postgres_repo index_row_too_large) create_data s =
  User.create settings UserRepository.repo create_data s.
Proof.
  intros Hk Hfit Hp. unfold User.create, bind.
  rewrite postgres_find_by_username, Hk, find_by_username_eq.
  destruct (visible s !! CreateUserDTO.username create_data); [reflexivity|].
  cbn [fmap option_fmap option_map].
  cbn [IUserRepo.create UserRepository.postgres_repo UserRepository.repo_on
       UserRepository.repo].
  unfold UserRepository.create, UserRepository.create_on.
  rewrite postgres_create; [reflexivity| exact Hk | apply password_hash_has_no_nul
                           | exact Hfit |].
  cbn [record_call pending]. rewrite Hp. constructor.
Qed.

Lemma postgres_user_create_nul (create_data : CreateUserDTO.t) (s : Session) :
  has_nul (CreateUserDTO.username create_data) = true ->
  User.create settings (UserRepository.postgres_repo index_row_too_large) create_data s =
  (Raise DBAPIError, record_call (GetOne (CreateUserDTO.username create_data)) s).
Proof.
  intros Hk. unfold User.create, bind. rewrite postgres_find_by_username, Hk. reflexivity.
Qed.

Lemma postgres_login (now : Z) (login_data : LoginUserDTO.t) (s : Session) :
  User.login settings (UserRepository.postgres_repo index_row_too_large) now login_data s =
  if has_nul (LoginUserDTO.username login_data)
  then (Raise DBAPIError, record_call (GetOne (LoginUserDTO.username login_data)) s)
  else User.login settings UserRepository.repo now login_data s.
Proof.
  unfold User.login, bind. rewrite postgres_find_by_username.
  destruct (has_nul _); reflexivity.
Qed.

Lemma postgres_get_current (now : Z) (token : jwt.token) (s : Session) :
  User.get_current settings (UserRepository.postgres_repo index_row_too_large) now token s =
  match jwt.decode token (AUTH_SECRET_KEY settings)
                   [AUTH_HASH_ALGORITHM settings] now with
  | inl _ => (Raise UserDoesNotExistError, s)
  | inr payload =>
      match jwt.get payload (AUTH_ACCESS_TOKEN_USERNAME_FIELD settings) with
      | None => (Raise UserDoesNotExistError, s)
      | Some username =>
          if bool_decide (username = "") then (Raise UserDoesNotExistError, s)
          else if has_nul username
          then (Raise DBAPIError, record_call (GetOne username) s)
          else
            (match visible s !! username with
             | Some h => Return (UserDTO.mk username h)
             | None => Raise UserDoesNotExistError
             end,
             record_call (GetOne username) s)
      end
  end.
Proof.
  unfold User.get_current, try_except.
  destruct (jwt.decode _ _ _ _) as [e|payload]; [reflexivity|].
  unfold bind at 1. unfold ret at 1.
  destruct (jwt.get _ _) as [username|]; [|reflexivity].
  destruct (bool_decide (username = "")); [reflexivity|].
  unfold bind. rewrite postgres_find_by_username.
  destruct (has_nul username); [reflexivity|].
  rewrite find_by_username_eq.
  destruct (visible s !! username); reflexivity.
Qed.

End PostgresFacts.

(** ** The handlers and the request scope on the PostgreSQL table *)

Section PostgresHandlers.

Variable settings : Settings.
Variable index_row_too_large : string -> bool.

Lemma postgres_register_user (user_data : schemas.RegistrationRequest) (s : Session) :
  has_nul (schemas.reg_username user_data) = false ->
  index_row_too_large (schemas.reg_username user_data) = false ->
  pending s = [] ->
  handlers.register_user settings (UserRepository.postgres_repo index_row_too_large)
    user_data s =
  handlers.register_user settings UserRepository.repo user_data s.
Proof.
  intros Hk Hfit Hp.
  cbv beta iota zeta delta [handlers.register_user try_except bind ret raise].
  rewrite postgres_user_create by assumption. reflexivity.
Qed.

Lemma postgres_register_user_nul (user_data : schemas.RegistrationRequest) (s : Session) :
  has_nul (schemas.reg_username user_data) = true ->
  handlers.register_user settings (UserRepository.postgres_repo index_row_too_large)
    user_data s =
  (Raise DBAPIError, record_call (GetOne (schemas.reg_username user_data)) s).
Proof.
  intros Hk.
  cbv beta iota zeta delta [handlers.register_user try_except bind ret raise].
  rewrite postgres_user_create_nul by assumption. reflexivity.
Qed.

Lemma postgres_oauth2_login (now : Z) (U P : string) (s : Session) :
  handlers.oauth2_login settings (UserRepository.postgres_repo index_row_too_large) now
    (mkOAuth2PasswordRequestForm U P) s =
  if has_nul U then (Raise DBAPIError, record_call (GetOne U) s)
  else handlers.oauth2_login settings UserRepository.repo now
         (mkOAuth2PasswordRequestForm U P) s.
Proof.
  cbv beta iota zeta delta [handlers.oauth2_login try_except bind ret raise].
  cbn [form_username form_password]. rewrite postgres_login.
  cbn [LoginUserDTO.username]. destruct (has_nul U); reflexivity.
Qed.

Lemma postgres_current_user_di (now : Z) (token : jwt.token) (s : Session) :
  handlers.current_user_di settings (UserRepository.postgres_repo index_row_too_large)
    now token s =
  match jwt.decode token (AUTH_SECRET_KEY settings)
                   [AUTH_HASH_ALGORITHM settings] now with
  | inl _ => (Raise (HTTPException 401 "User is not authenticated." []), s)
  | inr payload =>
      match jwt.get payload (AUTH_ACCESS_TOKEN_USERNAME_FIELD settings) with
      | None => (Raise (HTTPException 401 "User is not authenticated." []), s)
      | Some username =>
          if bool_decide (username = "")
          then (Raise (HTTPException 401 "User is not authenticated." []), s)
          else if has_nul username
          then (Raise DBAPIError, record_call (GetOne username) s)
          else
            (match visible s !! username with
             | Some h => Return (UserDTO.mk username h)
             | None => Raise (HTTPException 401 "User is not authenticated." [])
             end,
             record_call (GetOne username) s)
      end
  end.
Proof.
  cbv beta iota zeta delta [handlers.current_user_di try_except bind ret raise].
  rewrite postgres_get_current.
  destruct (jwt.decode _ _ _ _) as [err|payload]; [reflexivity|].
  destruct (jwt.get _ _) as [username|]; [|reflexivity].
  destruct (bool_decide _); [reflexivity|].
  destruct (has_nul username); [reflexivity|].
  destruct (visible s !! username); reflexivity.
Qed.

Lemma postgres_current_user_di_rows (now : Z) (token : jwt.token) (s : Session) :
  exists (o : outcome UserDTO.t) (reads : list Call),
    handlers.current_user_di settings (UserRepository.postgres_repo index_row_too_large)
      now token s =
    (o, mkSession (committed s) (flushed s) (pending s) (calls s ++ reads)).
Proof.
  rewrite postgres_current_user_di.
  assert (Hs : s = mkSession (committed s) (flushed s) (pending s) (calls s ++ [])).
  { rewrite app_nil_r. destruct s; reflexivity. }
  destruct (jwt.decode _ _ _ _) as [err|payload].
  { eexists _, []. rewrite <- Hs. reflexivity. }
  destruct (jwt.get _ _) as [username|].
  2:{ eexists _, []. rewrite <- Hs. reflexivity. }
  destruct (bool_decide _).
  { eexists _, []. rewrite <- Hs. reflexivity. }
  destruct (has_nul username).
  { eexists _, [GetOne username]. reflexivity. }
  eexists _, [GetOne username]. reflexivity.
Qed.

Lemma postgres_request_returns {A : Type} (request : M Session A) (s : Session) (a : A)
      (s1 : Session) :
  request s = (Return a, s1) ->
  pending s1 = [] ->
  get_async_session_on (postgres_session index_row_too_large) request s =
  (Return a, mkSession (flushed s1 ∪ committed s1) ∅ [] (calls s1 ++ [Commit])).
Proof.
  intros Hr Hp. unfold get_async_session_on, try_except, bind. rewrite Hr.
  cbn [AsyncSession.commit postgres_session]. unfold postgres.commit, bind, called.
  cbn [record_call committed flushed pending calls]. rewrite Hp.
  cbn [postgres.write_all]. unfold ret. reflexivity.
Qed.

Lemma postgres_request_raises {A : Type} (request : M Session A) (s : Session)
      (e : Exception) (s1 : Session) :
  request s = (Raise e, s1) ->
  get_async_session_on (postgres_session index_row_too_large) request s =
  (Raise e, mkSession (committed s1) ∅ [] (calls s1 ++ [Rollback])).
Proof.
  intros Hr. unfold get_async_session_on, try_except, bind. rewrite Hr.
  cbn [AsyncSession.rollback postgres_session]. reflexivity.
Qed.

End PostgresHandlers.

(* ===================================================================== *)
(** ** Registration, login and token resolution                            *)
(* ===================================================================== *)

(** C1, as stated, fails for a username with a zero byte: the store shows
    no record for it, yet [create] does not succeed; the lookup that
    [create] starts with is refused by the database, and the
    [DBAPIError] is none of the errors the repository catches. *)
Lemma username_with_nul_is_not_registered :
  visible (new_session ∅) !! name_with_nul = None
  /\ User.create example_settings (UserRepository.postgres_repo (fun _ => false))
       (CreateUserDTO.mk name_with_nul "p@ss") (new_session ∅) =
     (Raise DBAPIError, record_call (GetOne name_with_nul) (new_session ∅)).
Proof. split; vm_compute; reflexivity. Qed.

(** C1, amended (round-trip credential).  For every username [U] that
    the database takes as a key (no zero byte, an index row within the
    limit) and every password [P]: when the store shows no record for [U]
    (and the session has nothing staged), [create] succeeds and stores a
    record for [U] holding the salted digest of [P]; after that, a second
    [create] for [U] with any password [P'] raises
    [UserAlreadyExistsError] and leaves the rows as they were, and
    [login (U, P)], before or after that second attempt, at an instant
    and under settings with which a token can be issued, succeeds and
    returns the access token of [U]. *)
Theorem register_once_then_login
  (settings : Settings) (index_row_too_large : string -> bool)
  (U P : string) (s : Session) :
  has_nul U = false ->
  index_row_too_large U = false ->
  visible s !! U = None ->
  pending s = [] ->
  exists s1 : Session,
    User.create settings (UserRepository.postgres_repo index_row_too_large)
      (CreateUserDTO.mk U P) s =
      (Return (UserDTO.mk U (User._get_password_hash settings P)), s1)
    /\ visible s1 !! U = Some (User._get_password_hash settings P)
    /\ forall (P' : string) (now : Z),
         exists s2 : Session,
           User.create settings (UserRepository.postgres_repo index_row_too_large)
             (CreateUserDTO.mk U P') s1 = (Raise UserAlreadyExistsError, s2)
           /\ visible s2 = visible s1
           /\ (issues_tokens settings now = true ->
               fst (User.login settings (UserRepository.postgres_repo index_row_too_large)
                      now (LoginUserDTO.mk U P) s1) =
                 Return (User._create_access_token settings now U)
               /\ fst (User.login settings
                         (UserRepository.postgres_repo index_row_too_large)
                         now (LoginUserDTO.mk U P) s2) =
                    Return (User._create_access_token settings now U)).
Proof.
  intros Hnul Hfit Hfree Hidle.
  eexists. split.
  { rewrite postgres_user_create by assumption.
    apply (user_create_fresh settings (CreateUserDTO.mk U P) s Hfree Hidle). }
  cbn [CreateUserDTO.username CreateUserDTO.password].
  assert (Hstored : forall c,
    visible (record_call c
      (mkSession (committed s) (<[U := User._get_password_hash settings P]> (flushed s)) []
         (calls s ++ [GetOne U; GetOne U; Merge U; Flush]))) !! U =
    Some (User._get_password_hash settings P)).
  { intros c. unfold visible. cbn [record_call committed flushed].
    apply lookup_union_Some_l, lookup_insert_eq. }
  split.
  { unfold visible. cbn [committed flushed]. apply lookup_union_Some_l, lookup_insert_eq. }
  intros P' now. eexists. split.
  { rewrite postgres_user_create by (try assumption; reflexivity).
    apply (user_create_existing settings (CreateUserDTO.mk U P') _
             (User._get_password_hash settings P)).
    cbn [CreateUserDTO.username]. unfold visible. cbn [committed flushed].
    apply lookup_union_Some_l, lookup_insert_eq. }
  split; [reflexivity|].
  intros _. split.
  - rewrite postgres_login. cbn [LoginUserDTO.username]. rewrite Hnul.
    rewrite login_eq. cbn [fst LoginUserDTO.username LoginUserDTO.password].
    unfold visible. cbn [committed flushed].
    rewrite (lookup_union_Some_l _ _ _ _ (lookup_insert_eq _ _ _)).
    rewrite bool_decide_eq_true_2 by reflexivity. reflexivity.
  - rewrite postgres_login. cbn [LoginUserDTO.username]. rewrite Hnul.
    rewrite login_eq.
    cbn [fst LoginUserDTO.username LoginUserDTO.password CreateUserDTO.username].
    rewrite Hstored.
    rewrite bool_decide_eq_true_2 by reflexivity. reflexivity.
Qed.

(** C1 amended at ["alice"] with password ["p@ss"] on an empty table. *)
Lemma register_once_then_login_witness :
  exists s1 : Session,
    User.create example_settings (UserRepository.postgres_repo (fun _ => false))
      (CreateUserDTO.mk "alice" "p@ss") (new_session ∅) =
      (Return (UserDTO.mk "alice" (User._get_password_hash example_settings "p@ss")), s1)
    /\ exists s2 : Session,
         User.create example_settings (UserRepository.postgres_repo (fun _ => false))
           (CreateUserDTO.mk "alice" "anything") s1 = (Raise UserAlreadyExistsError, s2)
         /\ fst (User.login example_settings (UserRepository.postgres_repo (fun _ => false))
                   1000 (LoginUserDTO.mk "alice" "p@ss") s2) =
              Return (User._create_access_token example_settings 1000 "alice").
Proof.
  destruct (register_once_then_login example_settings (fun _ => false) "alice" "p@ss"
              (new_session ∅))
    as (s1 & Hcreate & _ & Hafter).
  - reflexivity.
  - reflexivity.
  - vm_compute. reflexivity.
  - reflexivity.
  - destruct (Hafter "anything" 1000%Z) as (s2 & Hsecond & _ & Hlogin).
    exists s1. split; [exact Hcreate|]. exists s2. split; [exact Hsecond|].
    apply Hlogin. reflexivity.
Defined.

(** C2, as stated, fails for the empty username: [create] and [login]
    accept it, but [get_current] treats the empty subject of the issued
    token as missing. *)
Lemma empty_username_logs_in_but_never_resolves :
  exists (s1 : Session) (token : jwt.token) (s2 : Session),
    User.create example_settings UserRepository.repo (CreateUserDTO.mk "" "p@ss")
      (new_session ∅) =
      (Return (UserDTO.mk "" (User._get_password_hash example_settings "p@ss")), s1)
    /\ User.login example_settings UserRepository.repo 1000 (LoginUserDTO.mk "" "p@ss") s1 =
         (Return token, s2)
    /\ fst (User.get_current example_settings UserRepository.repo 1000 token s2) =
         Raise UserDoesNotExistError.
Proof.
  exists (snd (User.create example_settings UserRepository.repo
                 (CreateUserDTO.mk "" "p@ss") (new_session ∅))).
  exists (User._create_access_token example_settings 1000 "").
  exists (snd (User.login example_settings UserRepository.repo 1000
                 (LoginUserDTO.mk "" "p@ss")
                 (snd (User.create example_settings UserRepository.repo
                         (CreateUserDTO.mk "" "p@ss") (new_session ∅))))).
  split_and!; vm_compute; reflexivity.
Qed.

(** C2, amended (token validity).  Under settings and at an instant with
    which a token can be issued, for every user [U] with a non-empty
    username: if [login (U, P)] at the instant [now] returns a token,
    then the store holds the record of [U] with the digest of [P], and
    [get_current] of that token at any instant [now'] before
    [now + tokenTTL] returns that record, whose username is [U].  And at
    any instant, a token that [jwt.decode] rejects, as it does one whose
    signature does not verify under the secret key, or whose subject
    names a username without a record, makes [get_current] raise
    [UserDoesNotExistError]. *)
Theorem token_resolves_to_its_user
  (settings : Settings) (index_row_too_large : string -> bool) (now now' : Z)
  (U P : string) (s : Session) (token : jwt.token) (s1 : Session) :
  issues_tokens settings now = true ->
  U <> "" ->
  User.login settings (UserRepository.postgres_repo index_row_too_large) now
    (LoginUserDTO.mk U P) s = (Return token, s1) ->
  (now' < now + 60 * AUTH_ACCESS_TOKEN_EXPIRE_MINUTES settings)%Z ->
  (visible s !! U = Some (User._get_password_hash settings P)
   /\ User.get_current settings (UserRepository.postgres_repo index_row_too_large)
        now' token s1 =
        (Return (UserDTO.mk U (User._get_password_hash settings P)),
         record_call (GetOne U) s1))
  /\ (forall (tok : jwt.token) (e : jwt.InvalidTokenError) (st : Session),
        jwt.decode tok (AUTH_SECRET_KEY settings) [AUTH_HASH_ALGORITHM settings] now' =
          inl e ->
        fst (User.get_current settings (UserRepository.postgres_repo index_row_too_large)
               now' tok st) = Raise UserDoesNotExistError)
  /\ (forall (tok : jwt.token) (payload : jwt.claims) (username : string) (st : Session),
        jwt.decode tok (AUTH_SECRET_KEY settings) [AUTH_HASH_ALGORITHM settings] now' =
          inr payload ->
        jwt.get payload (AUTH_ACCESS_TOKEN_USERNAME_FIELD settings) = Some username ->
        has_nul username = false ->
        visible st !! username = None ->
        fst (User.get_current settings (UserRepository.postgres_repo index_row_too_large)
               now' tok st) = Raise UserDoesNotExistError).
Proof.
  intros _ HU Hlogin Hfresh.
  rewrite postgres_login in Hlogin. cbn [LoginUserDTO.username] in Hlogin.
  destruct (has_nul U) eqn:Hnul; [discriminate Hlogin|].
  rewrite login_eq in Hlogin. cbn [LoginUserDTO.username LoginUserDTO.password] in Hlogin.
  destruct (visible s !! U) as [h|] eqn:Hk; [|discriminate Hlogin].
  destruct (bool_decide (User._get_password_hash settings P = h)) eqn:Hb;
    [|discriminate Hlogin].
  apply bool_decide_eq_true_1 in Hb. subst h.
  inversion Hlogin; subst token s1; clear Hlogin.
  split_and!.
  - reflexivity.
  - rewrite postgres_get_current.
    unfold User._create_access_token, jwt.encode, jwt.decode. cbn [jwt.exp].
    rewrite (bool_decide_eq_true_2 _ (list_elem_of_here _ _)).
    rewrite bool_decide_eq_true_2 by reflexivity. cbn [negb].
    destruct (Z.leb_spec (now + 60 * AUTH_ACCESS_TOKEN_EXPIRE_MINUTES settings) now');
      [lia|].
    unfold jwt.get. cbn [jwt.text_claims]. rewrite lookup_singleton_eq.
    rewrite bool_decide_eq_false_2 by exact HU. rewrite Hnul.
    change (visible (record_call (GetOne U) s)) with (visible s). rewrite Hk.
    reflexivity.
  - intros tok e st Hd. rewrite postgres_get_current, Hd. reflexivity.
  - intros tok payload username st Hd Hg Hn Hv.
    rewrite postgres_get_current, Hd, Hg.
    destruct (bool_decide (username = "")); [reflexivity|].
    rewrite Hn. cbn [fst]. rewrite Hv. reflexivity.
Qed.

(** C2 amended at ["erin"]: the token issued at 1000 resolves at 2000. *)
Lemma token_resolves_to_its_user_witness :
  fst (User.get_current example_settings (UserRepository.postgres_repo (fun _ => false))
         2000
         (User._create_access_token example_settings 1000 "erin")
         (record_call (GetOne "erin")
            (new_session {[ "erin" := User._get_password_hash example_settings "pw" ]}))) =
    Return (UserDTO.mk "erin" (User._get_password_hash example_settings "pw")).
Proof.
  destruct (token_resolves_to_its_user example_settings (fun _ => false) 1000 2000
              "erin" "pw"
              (new_session {[ "erin" := User._get_password_hash example_settings "pw" ]})
              (User._create_access_token example_settings 1000 "erin")
              (record_call (GetOne "erin")
                 (new_session {[ "erin" := User._get_password_hash example_settings "pw" ]})))
    as [[_ Hresolved] _].
  - reflexivity.
  - discriminate.
  - vm_compute. reflexivity.
  - vm_compute. reflexivity.
  - rewrite Hresolved. reflexivity.
Defined.

(** C3, as stated, fails for a username with a zero byte: there is no
    record for it, yet [login] does not raise [UserDoesNotExistError];
    the database refuses the lookup and the [DBAPIError] passes through
    the repository and the aggregate. *)
Lemma login_of_a_username_with_nul :
  visible (new_session ∅) !! name_with_nul = None
  /\ fst (User.login example_settings (UserRepository.postgres_repo (fun _ => false)) 1000
            (LoginUserDTO.mk name_with_nul "x") (new_session ∅)) = Raise DBAPIError.
Proof. split; vm_compute; reflexivity. Qed.

(** C3, amended (login outcomes).  For every [login (U, P)] with a
    username without a zero byte: without a record for [U] it raises
    [UserDoesNotExistError]; with a record whose stored hash differs
    from the digest of [P] and the salt it raises
    [InvalidPasswordError]; with a record whose stored hash is exactly
    that digest, at an instant and under settings with which a token can
    be issued, it returns the token signed with the secret key and the
    configured algorithm whose claims are the subject field set to [U]
    and [exp] set to [now] plus the token lifetime. *)
Theorem login_outcomes
  (settings : Settings) (index_row_too_large : string -> bool) (now : Z)
  (U P : string) (s : Session) :
  has_nul U = false ->
  (visible s !! U = None ->
   fst (User.login settings (UserRepository.postgres_repo index_row_too_large) now
          (LoginUserDTO.mk U P) s) = Raise UserDoesNotExistError)
  /\ (forall h : string,
        visible s !! U = Some h ->
        User._get_password_hash settings P <> h ->
        fst (User.login settings (UserRepository.postgres_repo index_row_too_large) now
               (LoginUserDTO.mk U P) s) = Raise InvalidPasswordError)
  /\ (visible s !! U = Some (User._get_password_hash settings P) ->
      issues_tokens settings now = true ->
      fst (User.login settings (UserRepository.postgres_repo index_row_too_large) now
             (LoginUserDTO.mk U P) s) =
        Return (jwt.encode
                  (jwt.mkClaims {[ AUTH_ACCESS_TOKEN_USERNAME_FIELD settings := U ]}
                     (Some (now + 60 * AUTH_ACCESS_TOKEN_EXPIRE_MINUTES settings)%Z))
                  (AUTH_SECRET_KEY settings) (AUTH_HASH_ALGORITHM settings))).
Proof.
  intros Hnul. rewrite postgres_login. cbn [LoginUserDTO.username]. rewrite Hnul.
  rewrite login_eq. cbn [fst LoginUserDTO.username LoginUserDTO.password].
  split; [|split].
  - intros ->. reflexivity.
  - intros h -> Hne. rewrite bool_decide_eq_false_2 by exact Hne. reflexivity.
  - intros -> _. rewrite bool_decide_eq_true_2 by reflexivity. reflexivity.
Qed.

(** C3 amended on the three cases of the unit tests: an unknown user, a
    wrong password, the right password. *)
Lemma login_outcomes_witness :
  fst (User.login example_settings (UserRepository.postgres_repo (fun _ => false)) 1000
         (LoginUserDTO.mk "nobody" "x") (new_session ∅)) = Raise UserDoesNotExistError
  /\ fst (User.login example_settings (UserRepository.postgres_repo (fun _ => false)) 1000
            (LoginUserDTO.mk "dave" "wrong")
            (new_session {[ "dave" := User._get_password_hash example_settings "right" ]})) =
       Raise InvalidPasswordError
  /\ fst (User.login example_settings (UserRepository.postgres_repo (fun _ => false)) 1000
            (LoginUserDTO.mk "dave" "right")
            (new_session {[ "dave" := User._get_password_hash example_settings "right" ]})) =
       Return (jwt.Signed "HS256" (jwt.mkClaims {[ "sub" := "dave" ]} (Some 87400%Z)) "k3y").
Proof.
  split; [|split].
  - refine (proj1 (login_outcomes example_settings (fun _ => false) 1000 "nobody" "x"
                     (new_session ∅) _) _).
    + reflexivity.
    + vm_compute. reflexivity.
  - refine (proj1 (proj2 (login_outcomes example_settings (fun _ => false) 1000
                            "dave" "wrong"
             (new_session {[ "dave" := User._get_password_hash example_settings "right" ]})
             _))
             (User._get_password_hash example_settings "right") _ _).
    + reflexivity.
    + vm_compute. reflexivity.
    + vm_compute. discriminate.
  - refine (proj2 (proj2 (login_outcomes example_settings (fun _ => false) 1000
                            "dave" "right"
             (new_session {[ "dave" := User._get_password_hash example_settings "right" ]})
             _)) _ _).
    + reflexivity.
    + vm_compute. reflexivity.
    + reflexivity.
Defined.




(* ===================================================================== *)
(** ** The stored password hash                                            *)
(* ===================================================================== *)

(** The record stored at registration carries the SHA-256 digest, in
    hexadecimal, of the password bytes followed by the salt bytes; the
    digest depends on the settings through the salt only, so the same
    password and salt always give the same hash. *)
Theorem stored_hash_is_the_salted_digest
  (settings : Settings) (create_data : CreateUserDTO.t)
  (s : Session) (u : UserDTO.t) (s' : Session) :
  pending s = [] ->
  User.create settings UserRepository.repo create_data s = (Return u, s') ->
  UserDTO.password_hash u =
    hashlib.hexdigest
      (hashlib.sha256 (hashlib.bytes_of (CreateUserDTO.password create_data) ++
                       hashlib.bytes_of (AUTH_PASSWORD_SALT settings)))
  /\ visible s' !! CreateUserDTO.username create_data = Some (UserDTO.password_hash u)
  /\ forall settings' : Settings,
       AUTH_PASSWORD_SALT settings' = AUTH_PASSWORD_SALT settings ->
       User._get_password_hash settings' (CreateUserDTO.password create_data) =
         UserDTO.password_hash u.
Proof.
  intros Hidle H.
  destruct (user_create_returns settings create_data s u s' Hidle H) as (_ & -> & ->).
  cbn [UserDTO.password_hash]. split_and!.
  - reflexivity.
  - unfold visible. cbn [committed flushed].
    apply lookup_union_Some_l, lookup_insert_eq.
  - intros settings' Hsalt. unfold User._get_password_hash. rewrite Hsalt. reflexivity.
Qed.

Lemma stored_hash_is_the_salted_digest_witness :
  UserDTO.password_hash
    (UserDTO.mk "alice" (User._get_password_hash example_settings "p@ss")) =
  "68c92e1c67a6f602017fc0a063b4092d7a06090c00594a20f6e1ea0457f95a09".
Proof.
  destruct (stored_hash_is_the_salted_digest example_settings
              (CreateUserDTO.mk "alice" "p@ss") (new_session ∅)
              (UserDTO.mk "alice" (User._get_password_hash example_settings "p@ss"))
              (snd (User.create example_settings UserRepository.repo
                      (CreateUserDTO.mk "alice" "p@ss") (new_session ∅))))
    as (Hdigest & _).
  - reflexivity.
  - vm_compute. reflexivity.
  - rewrite Hdigest. vm_compute. reflexivity.
Defined.

(** A password hash is sixty-four lower-case hexadecimal digits; hence it
    differs from every password that is not sixty-four characters long. *)
Theorem password_hash_is_64_hex_digits (settings : Settings) (P : string) :
  String.length (User._get_password_hash settings P) = 64%nat
  /\ Forall (fun c => is_hex_digit c = true)
       (list_ascii_of_string (User._get_password_hash settings P))
  /\ (String.length P <> 64%nat -> User._get_password_hash settings P <> P).
Proof.
  split_and!.
  - apply hexdigest_length.
  - apply hexdigest_digits.
  - intros Hlen Heq. apply Hlen. rewrite <- Heq. apply hexdigest_length.
Qed.

(* ===================================================================== *)
(** ** The login handlers                                                  *)
(* ===================================================================== *)

(** C6, as stated, fails for an unknown username: both login handlers let
    [UserDoesNotExistError] through instead of answering with the
    challenge. *)
Lemma login_of_unknown_user_is_not_challenged :
  fst (handlers.oauth2_login example_settings UserRepository.repo 1000
         (mkOAuth2PasswordRequestForm "nobody" "x") (new_session ∅)) =
    Raise UserDoesNotExistError
  /\ fst (handlers.json_login example_settings UserRepository.repo 1000
            (schemas.mkLoginRequest "nobody" "x") (new_session ∅)) =
       Raise UserDoesNotExistError.
Proof. split; vm_compute; reflexivity. Qed.

(** C6, amended.  For every login request, form-encoded or JSON, that
    names a stored user with a password whose digest differs from the
    stored hash, the handler answers with the authentication challenge:
    status 401, the message ["Incorrect username or password"], the header
    [WWW-Authenticate: Bearer]. *)
Theorem wrong_password_is_challenged
  (settings : Settings) (now : Z) (U P h : string) (s : Session) :
  visible s !! U = Some h ->
  User._get_password_hash settings P <> h ->
  fst (handlers.oauth2_login settings UserRepository.repo now
         (mkOAuth2PasswordRequestForm U P) s) =
    Raise (HTTPException 401 "Incorrect username or password"
             [("WWW-Authenticate", "Bearer")])
  /\ fst (handlers.json_login settings UserRepository.repo now
            (schemas.mkLoginRequest U P) s) =
       Raise (HTTPException 401 "Incorrect username or password"
                [("WWW-Authenticate", "Bearer")]).
Proof.
  intros Hk Hne.
  cbv beta iota zeta delta
    [handlers.oauth2_login handlers.json_login try_except bind ret raise].
  cbn [form_username form_password schemas.login_username schemas.login_password].
  rewrite !login_eq. cbn [LoginUserDTO.username LoginUserDTO.password].
  rewrite Hk, bool_decide_eq_false_2 by exact Hne.
  split; reflexivity.
Qed.

(** C6 amended at ["dave"], registered with ["right"], logging in with
    ["wrong"]. *)
Lemma wrong_password_is_challenged_witness :
  fst (handlers.oauth2_login example_settings UserRepository.repo 1000
         (mkOAuth2PasswordRequestForm "dave" "wrong")
         (new_session {[ "dave" := User._get_password_hash example_settings "right" ]})) =
    Raise (HTTPException 401 "Incorrect username or password"
             [("WWW-Authenticate", "Bearer")]).
Proof.
  refine (proj1 (wrong_password_is_challenged example_settings 1000 "dave" "wrong"
                   (User._get_password_hash example_settings "right")
                   (new_session {[ "dave" := User._get_password_hash example_settings "right" ]})
                   _ _)).
  - vm_compute. reflexivity.
  - vm_compute. discriminate.
Defined.

(* ===================================================================== *)
(** ** Usernames in the store                                              *)
(* ===================================================================== *)

(** C7, as stated, fails: registering the empty username on an empty
    table succeeds and stores a record under it. *)
Lemma empty_username_is_registered :
  exists s : Session,
    reachable example_settings (fun _ => True) s
    /\ visible s !! "" = Some (User._get_password_hash example_settings "p@ss").
Proof.
  exists (perform example_settings (Register (CreateUserDTO.mk "" "p@ss")) (new_session ∅)).
  split.
  - apply reachable_step; [apply reachable_new | exact I].
  - vm_compute. reflexivity.
Qed.

(** C7, amended.  [create] stores the username it is given, unchecked;
    so in every session reached from an empty table by the aggregate's
    operations and commits, in which every registration named a
    non-empty username, no record, flushed or committed, has the empty
    username. *)
Theorem named_registrations_store_named_records (settings : Settings) (s : Session) :
  reachable settings names_a_user s ->
  visible s !! "" = None /\ committed s !! "" = None.
Proof.
  intros Hr.
  assert (Hinv : committed s !! "" = None /\ flushed s !! "" = None /\ pending s = []).
  { induction Hr as [|s op Hr IH Hop].
    - cbn. split_and!; [apply lookup_empty|apply lookup_empty|reflexivity].
    - apply perform_rows; assumption. }
  destruct Hinv as (Hc & Hf & _). split; [|exact Hc].
  unfold visible. apply lookup_union_None. auto.
Qed.

(** C7 amended after registering ["alice"] and committing. *)
Lemma named_registrations_store_named_records_witness :
  visible (perform example_settings CommitSession
             (perform example_settings (Register (CreateUserDTO.mk "alice" "p@ss"))
                (new_session ∅))) !! "" = None.
Proof.
  apply (named_registrations_store_named_records example_settings).
  apply reachable_step; [|exact I].
  apply reachable_step; [apply reachable_new|].
  cbn. discriminate.
Defined.

(* ===================================================================== *)
(** ** Effects on the store                                                *)
(* ===================================================================== *)

(** C8 (frame).  [login] and [get_current] leave the committed rows, the
    flushed rows and the staged work of the session as they were, for
    every input: all they add to the session is reads ([login] one,
    [get_current] at most one), and the token goes nowhere but into the
    result.  A successful [create] on a session with nothing staged
    performs exactly one flush, which writes exactly one row, a new one:
    the record of the new user; and run as a request under
    [get_async_session], on a session without earlier writes, it makes
    the database gain exactly that row. *)
Theorem reads_change_nothing_and_register_writes_once (settings : Settings) :
  (forall (now : Z) (login_data : LoginUserDTO.t) (s : Session),
     snd (User.login settings UserRepository.repo now login_data s) =
       mkSession (committed s) (flushed s) (pending s)
         (calls s ++ [GetOne (LoginUserDTO.username login_data)]))
  /\ (forall (now : Z) (token : jwt.token) (s : Session),
        exists reads : list Call,
          Forall is_read reads
          /\ (length reads <= 1)%nat
          /\ snd (User.get_current settings UserRepository.repo now token s) =
               mkSession (committed s) (flushed s) (pending s) (calls s ++ reads))
  /\ (forall (create_data : CreateUserDTO.t) (s : Session) (u : UserDTO.t) (s' : Session),
        pending s = [] ->
        User.create settings UserRepository.repo create_data s = (Return u, s') ->
        visible s !! CreateUserDTO.username create_data = None
        /\ committed s' = committed s
        /\ flushed s' =
             <[CreateUserDTO.username create_data :=
                 User._get_password_hash settings (CreateUserDTO.password create_data)]>
               (flushed s)
        /\ pending s' = []
        /\ calls s' =
             calls s ++ [GetOne (CreateUserDTO.username create_data);
                         GetOne (CreateUserDTO.username create_data);
                         Merge (CreateUserDTO.username create_data); Flush])
  /\ (forall (create_data : CreateUserDTO.t) (s : Session) (u : UserDTO.t) (s' : Session),
        flushed s = ∅ -> pending s = [] ->
        get_async_session (User.create settings UserRepository.repo create_data) s =
          (Return u, s') ->
        committed s !! CreateUserDTO.username create_data = None
        /\ committed s' =
             <[CreateUserDTO.username create_data :=
                 User._get_password_hash settings (CreateUserDTO.password create_data)]>
               (committed s)
        /\ flushed s' = ∅ /\ pending s' = []).
Proof.
  split_and!.
  - intros now login_data s. rewrite login_eq. reflexivity.
  - intros now token s. rewrite get_current_eq.
    destruct (jwt.decode _ _ _ _) as [err|payload].
    { exists []. split_and!; [constructor|cbn; lia|].
      rewrite app_nil_r. destruct s; reflexivity. }
    destruct (jwt.get _ _) as [username|].
    2:{ exists []. split_and!; [constructor|cbn; lia|].
        rewrite app_nil_r. destruct s; reflexivity. }
    destruct (bool_decide _).
    { exists []. split_and!; [constructor|cbn; lia|].
      rewrite app_nil_r. destruct s; reflexivity. }
    exists [GetOne username]. split_and!; [repeat constructor|cbn; lia|reflexivity].
  - intros create_data s u s' Hidle H.
    destruct (user_create_returns settings create_data s u s' Hidle H) as (Hk & -> & ->).
    auto.
  - intros create_data s u s' Hclean Hidle H.
    unfold get_async_session, get_async_session_on, try_except in H. unfold bind at 1 in H.
    destruct (User.create settings UserRepository.repo create_data s) as [[u1|e] s1] eqn:Hc.
    2:{ run_coroutine in H. discriminate H. }
    destruct (user_create_returns settings create_data s u1 s1 Hidle Hc) as (Hk & -> & ->).
    run_coroutine in H.
    cbn [record_call committed flushed pending calls session.write_all] in H.
    run_coroutine in H. cbn [committed flushed pending calls] in H.
    inversion H; subst; clear H. cbn [committed flushed pending].
    unfold visible in Hk. rewrite Hclean in Hk |- *.
    rewrite (left_id_L ∅ (∪)) in Hk.
    split; [exact Hk|]. split; [|auto].
    rewrite <- insert_union_l, (left_id_L ∅ (∪)). reflexivity.
Qed.

(** C8 on the registration request of ["alice"] against an empty table. *)
Lemma reads_change_nothing_and_register_writes_once_witness :
  committed
    (snd (get_async_session
            (User.create example_settings UserRepository.repo
               (CreateUserDTO.mk "alice" "p@ss")) (new_session ∅))) =
  {[ "alice" := User._get_password_hash example_settings "p@ss" ]}.
Proof.
  destruct (proj2 (proj2 (proj2
              (reads_change_nothing_and_register_writes_once example_settings)))
              (CreateUserDTO.mk "alice" "p@ss") (new_session ∅)
              (UserDTO.mk "alice" (User._get_password_hash example_settings "p@ss"))
              (snd (get_async_session
                      (User.create example_settings UserRepository.repo
                         (CreateUserDTO.mk "alice" "p@ss")) (new_session ∅))))
    as (_ & Hdb & _).
  - reflexivity.
  - reflexivity.
  - vm_compute. reflexivity.
  - rewrite Hdb. reflexivity.
Defined.

(** C9 (empty subject).  When a token's signature verifies and it has
    not expired, and its subject claim is the empty text, or is absent,
    [get_current] raises [UserDoesNotExistError] and hands the store back
    untouched, whatever the repository: the store is not consulted.  So
    no token ever resolves to a record with the empty username. *)
Theorem empty_subject_is_not_found
  (settings : Settings) (now : Z) (token : jwt.token) (payload : jwt.claims) :
  jwt.decode token (AUTH_SECRET_KEY settings) [AUTH_HASH_ALGORITHM settings] now =
    inr payload ->
  jwt.get payload (AUTH_ACCESS_TOKEN_USERNAME_FIELD settings) = Some ""
  \/ jwt.get payload (AUTH_ACCESS_TOKEN_USERNAME_FIELD settings) = None ->
  (forall (S : Type) (repo : IUserRepo.t S) (s : S),
     User.get_current settings repo now token s = (Raise UserDoesNotExistError, s))
  /\ (forall (now' : Z) (token' : jwt.token) (s : Session) (u : UserDTO.t) (s' : Session),
        User.get_current settings UserRepository.repo now' token' s = (Return u, s') ->
        UserDTO.username u <> "").
Proof.
  intros Hd Hg. split.
  - intros S repo s. unfold User.get_current, try_except. rewrite Hd.
    unfold bind at 1. unfold ret at 1.
    destruct Hg as [-> | ->]; reflexivity.
  - clear Hd Hg. intros now' token' s u s'. rewrite get_current_eq.
    destruct (jwt.decode _ _ _ _) as [err|payload']; [discriminate|].
    destruct (jwt.get _ _) as [username|]; [|discriminate].
    destruct (bool_decide (username = "")) eqn:Hb; [discriminate|].
    apply bool_decide_eq_false_1 in Hb.
    destruct (visible s !! username); [|discriminate].
    intros H. inversion H; subst. exact Hb.
Qed.

(** C9 on the token that [login] issues for the empty username, against
    a table that does hold a record under the empty username: the session
    comes back without a single call. *)
Lemma empty_subject_is_not_found_witness :
  User.get_current example_settings UserRepository.repo 1000
    (User._create_access_token example_settings 1000 "")
    (new_session {[ "" := User._get_password_hash example_settings "p@ss" ]}) =
  (Raise UserDoesNotExistError,
   new_session {[ "" := User._get_password_hash example_settings "p@ss" ]}).
Proof.
  apply (proj1 (empty_subject_is_not_found example_settings 1000
                  (User._create_access_token example_settings 1000 "")
                  (jwt.mkClaims {[ "sub" := "" ]} (Some 87400%Z))
                  eq_refl (or_introl eq_refl))).
Defined.

(** C10, as stated, fails: the rollback that precedes the repository's
    exception takes the whole open transaction with it.  After a
    [create] of ["alice"] the session shows her record; a [create] of
    ["bob"] in the same session, whose flush is rejected because another
    transaction has committed ["bob"] meanwhile, fails, and the session
    no longer shows the record of ["alice"]. *)
Lemma failed_create_discards_an_earlier_flushed_row :
  exists s0 s' : Session,
    UserRepository.create_on (postgres_session (fun _ => false)) ∅ ∅
      (UserDTO.mk "alice" "h") (new_session ∅) = (Return (UserDTO.mk "alice" "h"), s0)
    /\ visible s0 !! "alice" = Some "h"
    /\ UserRepository.create_on (postgres_session (fun _ => false))
         ∅ {[ "bob" := "their hash" ]} (UserDTO.mk "bob" "our hash") s0 =
       (Raise UserAlreadyExistsError, s')
    /\ visible s' !! "alice" = None.
Proof.
  exists (mkSession ∅ {[ "alice" := "h" ]} [] [GetOne "alice"; Merge "alice"; Flush]).
  exists (mkSession {[ "bob" := "their hash" ]} ∅ []
            [GetOne "alice"; Merge "alice"; Flush;
             GetOne "bob"; Merge "bob"; Flush; Rollback]).
  split_and!; vm_compute; reflexivity.
Qed.

(** C10, amended (failure of [create]).  Whatever other transactions
    commit while [create] is suspended, a failing [create] of a record
    that the database takes (no zero byte in the key or the hash, an
    index row within the limit; the rows already staged likewise) raises
    the repository's already-exists exception, and either it stopped at
    the existence check, having written and staged nothing, or the flush
    was rejected and the session was rolled back before the exception
    left: the committed rows are those from before together with what
    the other transactions committed, and nothing flushed or staged
    remains, the rows that the session had flushed before this [create]
    included; so the store shows what it showed before only when the
    session had no earlier uncommitted writes.  On an undisturbed
    session with nothing staged, a failing [create] leaves committed
    rows, flushed rows and staged work exactly as they were. *)
Theorem create_atomic_on_failure
  {DTO : Type} (index_row_too_large : string -> bool)
  (map_model_to_dto : UserModel.t -> DTO)
  (map_dto_to_model : DTO -> UserModel.t)
  (already_exists_exception_class : Exception)
  (before_merge before_flush : gmap string string)
  (dto : DTO) (s : Session) (e : Exception) (s' : Session) :
  has_nul (UserModel.username (map_dto_to_model dto)) = false ->
  has_nul (UserModel.password_hash (map_dto_to_model dto)) = false ->
  index_row_too_large (UserModel.username (map_dto_to_model dto)) = false ->
  Forall (fun p => postgres.refused index_row_too_large p = false) (pending s) ->
  BaseRepository.create (postgres_session index_row_too_large)
    map_model_to_dto map_dto_to_model already_exists_exception_class
    before_merge before_flush dto s = (Raise e, s') ->
  e = already_exists_exception_class
  /\ ((is_Some (visible s !! UserModel.username (map_dto_to_model dto))
       /\ s' = record_call (GetOne (UserModel.username (map_dto_to_model dto))) s)
      \/
      (visible s !! UserModel.username (map_dto_to_model dto) = None
       /\ committed s' = before_flush ∪ (before_merge ∪ committed s)
       /\ flushed s' = ∅
       /\ pending s' = []
       /\ calls s' = calls s ++ [GetOne (UserModel.username (map_dto_to_model dto));
                                 Merge (UserModel.username (map_dto_to_model dto));
                                 Flush; Rollback]
       /\ visible s' = before_flush ∪ (before_merge ∪ committed s)
       /\ (flushed s = ∅ -> visible s' = before_flush ∪ (before_merge ∪ visible s))))
  /\ (before_merge = ∅ -> before_flush = ∅ -> pending s = [] ->
      committed s' = committed s /\ flushed s' = flushed s /\ pending s' = pending s).
Proof.
  intros Hnul Hhash Hfit Hstaged H.
  rewrite postgres_create in H by assumption. pose proof H as H0.
  apply create_failure in H. destruct H as (-> & [[Hk ->] | [Hk ->]]).
  - split; [reflexivity|]. split; [left; auto|]. intros _ _ _. auto.
  - split; [reflexivity|]. split.
    + right. split_and!; try reflexivity; [exact Hk| |].
      * unfold visible. cbn [committed flushed]. apply (left_id_L ∅ (∪)).
      * intros Hclean. unfold visible. cbn [committed flushed].
        rewrite Hclean, !(left_id_L ∅ (∪)). reflexivity.
    + intros -> -> Hidle.
      rewrite (create_fresh _ _ _ dto s Hk Hidle) in H0. discriminate H0.
Qed.

(** C10 amended when another transaction commits ["bob"] between the
    merge and the flush of this session's [create] of ["bob"]. *)
Lemma create_atomic_on_failure_witness :
  exists s' : Session,
    UserRepository.create_on (postgres_session (fun _ => false))
      ∅ {[ "bob" := "their hash" ]} (UserDTO.mk "bob" "our hash")
      (new_session ∅) = (Raise UserAlreadyExistsError, s')
    /\ committed s' = {[ "bob" := "their hash" ]} ∪ (∅ ∪ ∅)
    /\ flushed s' = ∅
    /\ pending s' = [].
Proof.
  exists (mkSession {[ "bob" := "their hash" ]} ∅ []
            [GetOne "bob"; Merge "bob"; Flush; Rollback]).
  assert (Hfails :
    BaseRepository.create (postgres_session (fun _ => false))
      UserRepository.map_model_to_dto UserRepository.map_dto_to_model
      UserAlreadyExistsError ∅ {[ "bob" := "their hash" ]} (UserDTO.mk "bob" "our hash")
      (new_session ∅) =
    (Raise UserAlreadyExistsError,
     mkSession {[ "bob" := "their hash" ]} ∅ []
       [GetOne "bob"; Merge "bob"; Flush; Rollback])).
  { vm_compute. reflexivity. }
  split; [exact Hfails|].
  destruct (create_atomic_on_failure (fun _ => false)
              UserRepository.map_model_to_dto UserRepository.map_dto_to_model
              UserAlreadyExistsError ∅ {[ "bob" := "their hash" ]}
              (UserDTO.mk "bob" "our hash") (new_session ∅) _ _
              eq_refl eq_refl eq_refl (Forall_nil_2 _) Hfails)
    as (_ & [[Hsome _] | (_ & Hc & Hf & Hp & _)] & _).
  - destruct Hsome as [h Hh]. vm_compute in Hh. discriminate Hh.
  - split; [exact Hc|]. split; [exact Hf | exact Hp].
Defined.

(* ===================================================================== *)
(** ** The scenario of the specification                                   *)
(* ===================================================================== *)

(** Register ["alice"] with ["p@ss"]; log in; ask who the token is;
    log in with a wrong password; register ["alice"] again. *)
Example alice_scenario :
  let repo := UserRepository.repo in
  let request {A : Type} (m : M Session A) (s : Session) := get_async_session m s in
  let r1 := request (handlers.register_user example_settings repo
                       (schemas.mkRegistrationRequest "alice" "p@ss")) (new_session ∅) in
  let r2 := request (handlers.oauth2_login example_settings repo 1000
                       (mkOAuth2PasswordRequestForm "alice" "p@ss")) (snd r1) in
  let token := User._create_access_token example_settings 1000 "alice" in
  let r3 := request (handlers.current_user_di example_settings repo 2000 token) (snd r2) in
  let r4 := request (User.login example_settings repo 3000
                       (LoginUserDTO.mk "alice" "wrong")) (snd r3) in
  let r5 := request (User.create example_settings repo
                       (CreateUserDTO.mk "alice" "anything")) (snd r4) in
  fst r1 = Return (schemas.mkRegistrationResponse "alice")
  /\ fst r2 = Return (schemas.mkLoginResponse token "bearer")
  /\ handlers.get_current_user <$> (match fst r3 with Return u => Some u | Raise _ => None end)
     = Some (schemas.mkCurrentUserResponse "alice")
  /\ fst r4 = Raise InvalidPasswordError
  /\ fst r5 = Raise UserAlreadyExistsError
  /\ committed (snd r5) = {[ "alice" := User._get_password_hash example_settings "p@ss" ]}.
Proof. vm_compute. split_and!; reflexivity. Qed.

(* ===================================================================== *)
(** ** The handlers at the transport boundary                              *)
(* ===================================================================== *)

(** Registration of a username that the database takes as a key answers
    with the username alone when the name is free, and with the client
    error 400 when it is taken: the domain error
    [UserAlreadyExistsError] does not leave the handler.  For a username
    with a zero byte the handler answers with neither: the [DBAPIError]
    of the lookup leaves it. *)
Theorem register_user_outcomes
  (settings : Settings) (index_row_too_large : string -> bool)
  (user_data : schemas.RegistrationRequest) (s : Session) :
  pending s = [] ->
  (has_nul (schemas.reg_username user_data) = false ->
   index_row_too_large (schemas.reg_username user_data) = false ->
   fst (handlers.register_user settings (UserRepository.postgres_repo index_row_too_large)
          user_data s) =
     match visible s !! schemas.reg_username user_data with
     | None => Return (schemas.mkRegistrationResponse (schemas.reg_username user_data))
     | Some _ =>
         Raise (HTTPException 400 "User with this username already exists." [])
     end)
  /\ (has_nul (schemas.reg_username user_data) = true ->
      fst (handlers.register_user settings
             (UserRepository.postgres_repo index_row_too_large) user_data s) =
        Raise DBAPIError).
Proof.
  intros Hidle. split.
  - intros Hnul Hfit. rewrite postgres_register_user by assumption.
    cbv beta iota zeta delta [handlers.register_user try_except bind ret raise].
    destruct (visible s !! schemas.reg_username user_data) as [h|] eqn:Hk.
    + rewrite (user_create_existing settings
                 (CreateUserDTO.mk (schemas.reg_username user_data)
                                   (schemas.reg_password user_data)) s h Hk).
      reflexivity.
    + rewrite (user_create_fresh settings
                 (CreateUserDTO.mk (schemas.reg_username user_data)
                                   (schemas.reg_password user_data)) s Hk Hidle).
      reflexivity.
  - intros Hnul. rewrite postgres_register_user_nul by assumption. reflexivity.
Qed.

Lemma register_user_outcomes_witness :
  fst (handlers.register_user example_settings (UserRepository.postgres_repo (fun _ => false))
         (schemas.mkRegistrationRequest "bob" "pwd")
         (new_session {[ "bob" := User._get_password_hash example_settings "pwd" ]})) =
    Raise (HTTPException 400 "User with this username already exists." []).
Proof.
  refine (eq_trans
            (proj1 (register_user_outcomes example_settings (fun _ => false)
               (schemas.mkRegistrationRequest "bob" "pwd")
               (new_session {[ "bob" := User._get_password_hash example_settings "pwd" ]}) _)
               _ _) _).
  - reflexivity.
  - reflexivity.
  - reflexivity.
  - vm_compute. reflexivity.
Defined.



(* ===================================================================== *)
(** ** The lifetime of a token                                             *)
(* ===================================================================== *)

(** The token issued at [now], under settings with which a token can be
    issued, for a stored user with a non-empty name resolves to that
    user's record at [now'] exactly while [now'] is before [now] plus the
    configured lifetime; in particular with a lifetime of zero or less it
    never resolves, not even at once. *)
Theorem issued_token_validity_window
  (settings : Settings) (index_row_too_large : string -> bool) (now now' : Z)
  (U h : string) (s : Session) :
  issues_tokens settings now = true ->
  U <> "" ->
  has_nul U = false ->
  visible s !! U = Some h ->
  fst (User.get_current settings (UserRepository.postgres_repo index_row_too_large) now'
         (User._create_access_token settings now U) s) =
    (if (now + 60 * AUTH_ACCESS_TOKEN_EXPIRE_MINUTES settings <=? now')%Z
     then Raise UserDoesNotExistError
     else Return (UserDTO.mk U h))
  /\ ((AUTH_ACCESS_TOKEN_EXPIRE_MINUTES settings <= 0)%Z ->
      fst (User.get_current settings (UserRepository.postgres_repo index_row_too_large) now
             (User._create_access_token settings now U) s) = Raise UserDoesNotExistError).
Proof.
  intros _ HU Hnul Hk.
  assert (Hwin : forall t,
    fst (User.get_current settings (UserRepository.postgres_repo index_row_too_large) t
           (User._create_access_token settings now U) s) =
    (if (now + 60 * AUTH_ACCESS_TOKEN_EXPIRE_MINUTES settings <=? t)%Z
     then Raise UserDoesNotExistError
     else Return (UserDTO.mk U h))).
  { intros t. rewrite postgres_get_current.
    unfold User._create_access_token, jwt.encode, jwt.decode. cbn [jwt.exp].
    rewrite (bool_decide_eq_true_2 _ (list_elem_of_here _ _)).
    rewrite bool_decide_eq_true_2 by reflexivity. cbn [negb].
    destruct (now + 60 * AUTH_ACCESS_TOKEN_EXPIRE_MINUTES settings <=? t)%Z; [reflexivity|].
    unfold jwt.get. cbn [jwt.text_claims]. rewrite lookup_singleton_eq.
    rewrite bool_decide_eq_false_2 by exact HU. rewrite Hnul.
    cbn [fst]. rewrite Hk. reflexivity. }
  split; [apply Hwin|].
  intros Httl. rewrite Hwin.
  destruct (Z.leb_spec (now + 60 * AUTH_ACCESS_TOKEN_EXPIRE_MINUTES settings) now);
    [reflexivity|lia].
Qed.

Lemma issued_token_validity_window_witness :
  fst (User.get_current example_settings (UserRepository.postgres_repo (fun _ => false))
         87400
         (User._create_access_token example_settings 1000 "erin")
         (new_session {[ "erin" := "h" ]})) = Raise UserDoesNotExistError
  /\ fst (User.get_current example_settings (UserRepository.postgres_repo (fun _ => false))
            87399
            (User._create_access_token example_settings 1000 "erin")
            (new_session {[ "erin" := "h" ]})) = Return (UserDTO.mk "erin" "h").
Proof.
  split.
  - refine (eq_trans (proj1 (issued_token_validity_window example_settings (fun _ => false)
                               1000 87400
                               "erin" "h" (new_session {[ "erin" := "h" ]}) _ _ _ _)) _).
    + reflexivity.
    + discriminate.
    + reflexivity.
    + vm_compute. reflexivity.
    + reflexivity.
  - refine (eq_trans (proj1 (issued_token_validity_window example_settings (fun _ => false)
                               1000 87399
                               "erin" "h" (new_session {[ "erin" := "h" ]}) _ _ _ _)) _).
    + reflexivity.
    + discriminate.
    + reflexivity.
    + vm_compute. reflexivity.
    + reflexivity.
Defined.

(* ===================================================================== *)
(** ** Records over histories                                              *)
(* ===================================================================== *)

(** Every hash found in a store that the aggregate filled is the salted
    digest of a password, hence sixty-four characters long. *)
Theorem stored_hashes_are_digests
  (settings : Settings) (s : Session) (k h : string) :
  reachable settings (fun _ => True) s ->
  visible s !! k = Some h ->
  (exists P : string, h = User._get_password_hash settings P)
  /\ String.length h = 64%nat.
Proof.
  intros Hr Hk.
  assert (Hinv : pending s = [] /\
                 forall k h, visible s !! k = Some h ->
                             exists P, h = User._get_password_hash settings P).
  { clear k h Hk. induction Hr as [|s op Hr [Hp IH] _].
    - split; [reflexivity|]. intros k h Hk. vm_compute in Hk. discriminate Hk.
    - destruct op as [create_data|now login_data|now token|]; cbn [perform].
      + destruct (visible s !! CreateUserDTO.username create_data) as [h0|] eqn:HU.
        * rewrite (user_create_existing settings create_data s h0 HU). auto.
        * rewrite (user_create_fresh settings create_data s HU Hp).
          cbn [snd pending]. split; [reflexivity|]. intros k h.
          unfold visible. cbn [committed flushed].
          rewrite <- insert_union_l. rewrite lookup_insert.
          destruct (decide (CreateUserDTO.username create_data = k)) as [_|_].
          -- intros [= <-]. eauto.
          -- apply IH.
      + rewrite login_eq. auto.
      + rewrite get_current_eq.
        destruct (jwt.decode _ _ _ _) as [err|payload]; [auto|].
        destruct (jwt.get _ _) as [username|]; [|auto].
        destruct (bool_decide _); auto.
      + unfold session.commit, bind, called. cbn [record_call pending].
        rewrite Hp. cbn [session.write_all ret snd committed flushed pending].
        unfold ret. cbn [snd committed flushed pending]. split; [reflexivity|].
        intros k h. unfold visible. cbn [committed flushed].
        rewrite (left_id_L ∅ (∪)). apply IH. }
  destruct Hinv as [_ Hinv]. destruct (Hinv k h Hk) as [P ->].
  split; [eauto|]. apply hexdigest_length.
Qed.

Lemma stored_hashes_are_digests_witness :
  exists P : string,
    "68c92e1c67a6f602017fc0a063b4092d7a06090c00594a20f6e1ea0457f95a09" =
    User._get_password_hash example_settings P.
Proof.
  refine (proj1 (stored_hashes_are_digests example_settings
                   (perform example_settings (Register (CreateUserDTO.mk "alice" "p@ss"))
                      (new_session ∅))
                   "alice" _ _ _)).
  - apply reachable_step; [apply reachable_new | exact I].
  - vm_compute. reflexivity.
Defined.

(* ===================================================================== *)
(** ** The repository on its own                                           *)
(* ===================================================================== *)

(** For a record that the database takes (no zero byte in the key or
    the hash, an index row within the limit): looking up its key while
    no row has it gives [None]; and what [create] has stored under the
    free key is what the lookup of that key returns, the other keys
    answering as before. *)
Theorem create_then_find
  (index_row_too_large : string -> bool) (dto : UserDTO.t) (s : Session) :
  has_nul (UserDTO.username dto) = false ->
  has_nul (UserDTO.password_hash dto) = false ->
  index_row_too_large (UserDTO.username dto) = false ->
  pending s = [] ->
  visible s !! UserDTO.username dto = None ->
  fst (UserRepository.find_by_username_on (postgres_session index_row_too_large)
         (UserDTO.username dto) s) = Return None
  /\ exists s1 : Session,
       UserRepository.create_on (postgres_session index_row_too_large) ∅ ∅ dto s =
         (Return dto, s1)
       /\ fst (UserRepository.find_by_username_on (postgres_session index_row_too_large)
                 (UserDTO.username dto) s1) = Return (Some dto)
       /\ forall k : string,
            k <> UserDTO.username dto ->
            fst (UserRepository.find_by_username_on (postgres_session index_row_too_large)
                   k s1) =
            fst (UserRepository.find_by_username_on (postgres_session index_row_too_large)
                   k s).
Proof.
  intros Hnul Hhash Hfit Hp Hk.
  unfold UserRepository.find_by_username_on, UserRepository.create_on.
  split; [rewrite postgres_get_by_id, Hnul, get_by_id_eq; cbn [fst]; rewrite Hk;
          reflexivity|].
  eexists. split.
  { rewrite postgres_create;
      [| destruct dto; exact Hnul | destruct dto; exact Hhash | destruct dto; exact Hfit
       | rewrite Hp; constructor].
    rewrite (create_fresh UserRepository.map_model_to_dto UserRepository.map_dto_to_model
               UserAlreadyExistsError dto s Hk Hp).
    destruct dto; reflexivity. }
  split.
  - rewrite postgres_get_by_id, Hnul, get_by_id_eq. cbn [fst]. unfold visible.
    cbn [committed flushed].
    rewrite (lookup_union_Some_l _ _ _ _ (lookup_insert_eq _ _ _)).
    destruct dto; reflexivity.
  - intros k Hne. rewrite !postgres_get_by_id.
    destruct (has_nul k); [reflexivity|].
    rewrite !get_by_id_eq. cbn [fst]. unfold visible.
    cbn [committed flushed].
    rewrite <- insert_union_l, lookup_insert_ne; [reflexivity|].
    cbn. congruence.
Qed.

Lemma create_then_find_witness :
  exists s1 : Session,
    UserRepository.create_on (postgres_session (fun _ => false)) ∅ ∅
      (UserDTO.mk "bob" "h") (new_session ∅) = (Return (UserDTO.mk "bob" "h"), s1)
    /\ fst (UserRepository.find_by_username_on (postgres_session (fun _ => false))
              "bob" s1) = Return (Some (UserDTO.mk "bob" "h")).
Proof.
  destruct (create_then_find (fun _ => false) (UserDTO.mk "bob" "h") (new_session ∅))
    as (_ & s1 & Hc & Hf & _).
  - reflexivity.
  - reflexivity.
  - reflexivity.
  - reflexivity.
  - vm_compute. reflexivity.
  - exists s1. split; [exact Hc | exact Hf].
Defined.

(** The existence check does not close the race: when another
    transaction commits the same username after the check and before the
    merge, [create] raises nothing and returns its record, and the row
    this session now shows for that username, and will commit, carries
    the new hash in place of the one committed by the other. *)
Theorem create_overwrites_a_concurrent_insert
  (before_merge : gmap string string) (dto : UserDTO.t) (s : Session) (theirs : string) :
  pending s = [] ->
  visible s !! UserDTO.username dto = None ->
  before_merge !! UserDTO.username dto = Some theirs ->
  exists s1 : Session,
    UserRepository.create before_merge ∅ dto s = (Return dto, s1)
    /\ committed s1 !! UserDTO.username dto = Some theirs
    /\ visible s1 !! UserDTO.username dto = Some (UserDTO.password_hash dto)
    /\ committed (snd (session.commit s1)) !! UserDTO.username dto =
         Some (UserDTO.password_hash dto).
Proof.
  destruct dto as [U h]. cbn [UserDTO.username UserDTO.password_hash].
  intros Hp Hk Htheirs.
  assert (Hf : flushed s !! U = None).
  { unfold visible in Hk. apply lookup_union_None in Hk. tauto. }
  unfold UserRepository.create, UserRepository.create_on, BaseRepository.create. unfold bind at 1.
  rewrite get_by_id_eq.
  cbn [UserRepository.map_dto_to_model UserDTO.username UserDTO.password_hash
       UserModel.username UserModel.password_hash].
  rewrite Hk.
  run_coroutine. unfold visible.
  cbn [committed flushed pending calls record_call UserRepository.map_model_to_dto
       UserRepository.map_dto_to_model UserDTO.username UserDTO.password_hash
       UserModel.username UserModel.password_hash].
  rewrite !(left_id_L ∅ (∪)).
  rewrite (lookup_union_r _ _ _ Hf), (lookup_union_Some_l _ _ _ _ Htheirs), Hp.
  destruct (bool_decide (theirs = h)) eqn:Hsame.
  - apply bool_decide_eq_true_1 in Hsame. subst theirs.
    cbn [app session.write_all ret]. unfold ret.
    eexists. split; [reflexivity|].
    cbn [committed flushed pending calls]. split_and!.
    + apply lookup_union_Some_l, Htheirs.
    + rewrite (lookup_union_r _ _ _ Hf). apply lookup_union_Some_l, Htheirs.
    + cbn [session.write_all ret snd committed flushed]. unfold ret.
      cbn [snd committed flushed].
      rewrite (lookup_union_r _ _ _ Hf). apply lookup_union_Some_l, Htheirs.
  - cbn [app session.write_all]. unfold bind, session.write, ret.
    cbn [committed flushed pending calls UserModel.username UserModel.password_hash].
    eexists. split; [reflexivity|].
    cbn [committed flushed pending calls]. split_and!.
    + apply lookup_union_Some_l, Htheirs.
    + apply lookup_union_Some_l, lookup_insert_eq.
    + cbn [session.write_all ret snd committed flushed]. unfold ret.
      cbn [snd committed flushed].
      apply lookup_union_Some_l, lookup_insert_eq.
Qed.

Lemma create_overwrites_a_concurrent_insert_witness :
  exists s1 : Session,
    UserRepository.create {[ "bob" := "their hash" ]} ∅ (UserDTO.mk "bob" "our hash")
      (new_session ∅) = (Return (UserDTO.mk "bob" "our hash"), s1)
    /\ committed (snd (session.commit s1)) !! "bob" = Some "our hash".
Proof.
  destruct (create_overwrites_a_concurrent_insert {[ "bob" := "their hash" ]}
              (UserDTO.mk "bob" "our hash") (new_session ∅) "their hash")
    as (s1 & Hc & _ & _ & Hdb).
  - reflexivity.
  - vm_compute. reflexivity.
  - vm_compute. reflexivity.
  - exists s1. split; [exact Hc | exact Hdb].
Defined.

(* ===================================================================== *)
(** ** Requests under [get_async_session]                                  *)
(* ===================================================================== *)

Lemma register_user_eq (settings : Settings) (user_data : schemas.RegistrationRequest)
      (s : Session) :
  pending s = [] ->
  handlers.register_user settings UserRepository.repo user_data s =
  match visible s !! schemas.reg_username user_data with
  | None =>
      (Return (schemas.mkRegistrationResponse (schemas.reg_username user_data)),
       mkSession (committed s)
         (<[schemas.reg_username user_data :=
              User._get_password_hash settings (schemas.reg_password user_data)]>
            (flushed s))
         []
         (calls s ++ [GetOne (schemas.reg_username user_data);
                      GetOne (schemas.reg_username user_data);
                      Merge (schemas.reg_username user_data); Flush]))
  | Some _ =>
      (Raise (HTTPException 400 "User with this username already exists." []),
       record_call (GetOne (schemas.reg_username user_data)) s)
  end.
Proof.
  intros Hidle.
  cbv beta iota zeta delta [handlers.register_user try_except bind ret raise].
  destruct (visible s !! schemas.reg_username user_data) as [h|] eqn:Hk.
  - rewrite (user_create_existing settings
               (CreateUserDTO.mk (schemas.reg_username user_data)
                                 (schemas.reg_password user_data)) s h Hk).
    reflexivity.
  - rewrite (user_create_fresh settings
               (CreateUserDTO.mk (schemas.reg_username user_data)
                                 (schemas.reg_password user_data)) s Hk Hidle).
    reflexivity.
Qed.

Lemma oauth2_login_eq (settings : Settings) (now : Z) (U P : string) (s : Session) :
  handlers.oauth2_login settings UserRepository.repo now (mkOAuth2PasswordRequestForm U P) s =
  (match visible s !! U with
   | None => Raise UserDoesNotExistError
   | Some h =>
       if bool_decide (User._get_password_hash settings P = h)
       then Return (schemas.mkLoginResponse
                      (User._create_access_token settings now U) "bearer")
       else Raise (HTTPException 401 "Incorrect username or password"
                     [("WWW-Authenticate", "Bearer")])
   end,
   record_call (GetOne U) s).
Proof.
  cbv beta iota zeta delta [handlers.oauth2_login try_except bind ret raise].
  cbn [form_username form_password]. rewrite login_eq.
  cbn [LoginUserDTO.username LoginUserDTO.password].
  destruct (visible s !! U) as [h|]; [|reflexivity].
  destruct (bool_decide _); reflexivity.
Qed.

(** Run as requests on a session without earlier writes, a login and a
    who-am-I leave the database as it was, whatever their input and
    their outcome; a registration of a username that the database takes
    as a key adds the row of the new user when the name is free and
    nothing otherwise, and a registration of a username with a zero byte
    adds nothing; and each request hands back a session without flushed
    or staged work, ready for the next. *)
Theorem requests_and_the_database
  (settings : Settings) (index_row_too_large : string -> bool) (s : Session) :
  flushed s = ∅ ->
  pending s = [] ->
  (forall user_data : schemas.RegistrationRequest,
     (has_nul (schemas.reg_username user_data) = false ->
      index_row_too_large (schemas.reg_username user_data) = false ->
      exists (o : outcome schemas.RegistrationResponse) (log : list Call),
        get_async_session_on (postgres_session index_row_too_large)
          (handlers.register_user settings
             (UserRepository.postgres_repo index_row_too_large) user_data) s =
        (o, mkSession
              (match committed s !! schemas.reg_username user_data with
               | None =>
                   <[schemas.reg_username user_data :=
                       User._get_password_hash settings (schemas.reg_password user_data)]>
                     (committed s)
               | Some _ => committed s
               end) ∅ [] log))
     /\ (has_nul (schemas.reg_username user_data) = true ->
         exists log : list Call,
           get_async_session_on (postgres_session index_row_too_large)
             (handlers.register_user settings
                (UserRepository.postgres_repo index_row_too_large) user_data) s =
           (Raise DBAPIError, mkSession (committed s) ∅ [] log)))
  /\ (forall (now : Z) (U P : string),
        exists (o : outcome schemas.LoginResponse) (log : list Call),
          get_async_session_on (postgres_session index_row_too_large)
            (handlers.oauth2_login settings
               (UserRepository.postgres_repo index_row_too_large) now
               (mkOAuth2PasswordRequestForm U P)) s =
          (o, mkSession (committed s) ∅ [] log))
  /\ (forall (now : Z) (token : jwt.token),
        exists (o : outcome UserDTO.t) (log : list Call),
          get_async_session_on (postgres_session index_row_too_large)
            (handlers.current_user_di settings
               (UserRepository.postgres_repo index_row_too_large) now token) s =
          (o, mkSession (committed s) ∅ [] log)).
Proof.
  intros Hclean Hidle.
  assert (Hvis : visible s = committed s).
  { unfold visible. rewrite Hclean. apply (left_id_L ∅ (∪)). }
  split_and!.
  - intros user_data. split.
    + intros Hnul Hfit.
      pose proof (postgres_register_user settings index_row_too_large user_data s
                    Hnul Hfit Hidle) as Hr.
      rewrite (register_user_eq settings user_data s Hidle), Hvis in Hr.
      destruct (committed s !! schemas.reg_username user_data) as [h|].
      * rewrite (postgres_request_raises _ _ _ _ _ Hr). cbn [record_call committed calls].
        eauto.
      * rewrite (postgres_request_returns _ _ _ _ _ Hr eq_refl).
        cbn [committed flushed calls].
        rewrite Hclean, <- insert_union_l, (left_id_L ∅ (∪)). eauto.
    + intros Hnul.
      rewrite (postgres_request_raises _ _ _ _ _
                 (postgres_register_user_nul settings index_row_too_large user_data s Hnul)).
      cbn [record_call committed calls]. eauto.
  - intros now U P.
    pose proof (postgres_oauth2_login settings index_row_too_large now U P s) as Hr.
    destruct (has_nul U).
    { rewrite (postgres_request_raises _ _ _ _ _ Hr). cbn [record_call committed calls].
      eauto. }
    rewrite oauth2_login_eq in Hr.
    destruct (match visible s !! U with
              | Some h => _ | None => _ end) as [a|e].
    + rewrite (postgres_request_returns _ _ _ _ _ Hr Hidle).
      cbn [record_call committed flushed calls].
      rewrite Hclean, (left_id_L ∅ (∪)). eauto.
    + rewrite (postgres_request_raises _ _ _ _ _ Hr). cbn [record_call committed calls].
      eauto.
  - intros now token.
    destruct (postgres_current_user_di_rows settings index_row_too_large now token s)
      as ([a|e] & reads & Hr).
    + rewrite (postgres_request_returns _ _ _ _ _ Hr Hidle). cbn [committed flushed calls].
      rewrite Hclean, (left_id_L ∅ (∪)). eauto.
    + rewrite (postgres_request_raises _ _ _ _ _ Hr). cbn [committed calls]. eauto.
Qed.

Lemma requests_and_the_database_witness :
  committed
    (snd (get_async_session_on (postgres_session (fun _ => false))
            (handlers.oauth2_login example_settings
               (UserRepository.postgres_repo (fun _ => false)) 1000
               (mkOAuth2PasswordRequestForm "dave" "wrong"))
            (new_session {[ "dave" := "h" ]}))) = {[ "dave" := "h" ]}.
Proof.
  destruct (proj1 (proj2 (requests_and_the_database example_settings (fun _ => false)
                            (new_session {[ "dave" := "h" ]}) eq_refl eq_refl))
              1000%Z "dave" "wrong") as (o & log & Hr).
  rewrite Hr. reflexivity.
Defined.

(** Registering a free, non-empty username that the database takes as a
    key, logging in with the same password at an instant and under
    settings with which a token can be issued, and presenting the
    returned token before it expires, each as a request of its own,
    answers with the username registered. *)
Theorem register_login_whoami
  (settings : Settings) (index_row_too_large : string -> bool) (now now' : Z)
  (U P : string) (s : Session) :
  issues_tokens settings now = true ->
  U <> "" ->
  has_nul U = false ->
  index_row_too_large U = false ->
  flushed s = ∅ ->
  pending s = [] ->
  committed s !! U = None ->
  (now' < now + 60 * AUTH_ACCESS_TOKEN_EXPIRE_MINUTES settings)%Z ->
  exists (s1 s2 s3 : Session) (token : jwt.token),
    get_async_session_on (postgres_session index_row_too_large)
      (handlers.register_user settings (UserRepository.postgres_repo index_row_too_large)
         (schemas.mkRegistrationRequest U P)) s =
      (Return (schemas.mkRegistrationResponse U), s1)
    /\ get_async_session_on (postgres_session index_row_too_large)
         (handlers.oauth2_login settings (UserRepository.postgres_repo index_row_too_large)
            now (mkOAuth2PasswordRequestForm U P)) s1 =
         (Return (schemas.mkLoginResponse token "bearer"), s2)
    /\ get_async_session_on (postgres_session index_row_too_large)
         (handlers.current_user_di settings
            (UserRepository.postgres_repo index_row_too_large) now' token) s2 =
         (Return (UserDTO.mk U (User._get_password_hash settings P)), s3)
    /\ handlers.get_current_user (UserDTO.mk U (User._get_password_hash settings P)) =
         schemas.mkCurrentUserResponse U.
Proof.
  intros _ HU Hnul Hfit Hclean Hidle Hfree Hlive.
  assert (Hvis : visible s !! U = None).
  { unfold visible. rewrite Hclean, (left_id_L ∅ (∪)). exact Hfree. }
  pose proof (postgres_register_user settings index_row_too_large
                (schemas.mkRegistrationRequest U P) s Hnul Hfit Hidle) as H1.
  rewrite (register_user_eq settings (schemas.mkRegistrationRequest U P) s Hidle) in H1.
  cbn [schemas.reg_username schemas.reg_password] in H1. rewrite Hvis in H1.
  eexists. eexists. eexists. exists (User._create_access_token settings now U).
  split; [apply (postgres_request_returns _ _ _ _ _ H1 eq_refl)|].
  cbn [committed flushed calls].
  split.
  { eapply postgres_request_returns.
    - rewrite postgres_oauth2_login, Hnul, oauth2_login_eq. unfold visible.
      cbn [committed flushed].
      rewrite (left_id_L ∅ (∪)).
      rewrite (lookup_union_Some_l _ _ _ _ (lookup_insert_eq _ _ _)).
      rewrite bool_decide_eq_true_2 by reflexivity. reflexivity.
    - reflexivity. }
  split; [|reflexivity].
  eapply postgres_request_returns.
  - rewrite postgres_current_user_di.
    unfold User._create_access_token, jwt.encode, jwt.decode. cbn [jwt.exp].
    rewrite (bool_decide_eq_true_2 _ (list_elem_of_here _ _)).
    rewrite bool_decide_eq_true_2 by reflexivity. cbn [negb].
    destruct (Z.leb_spec (now + 60 * AUTH_ACCESS_TOKEN_EXPIRE_MINUTES settings) now');
      [lia|].
    unfold jwt.get. cbn [jwt.text_claims]. rewrite lookup_singleton_eq.
    rewrite bool_decide_eq_false_2 by exact HU. rewrite Hnul.
    unfold visible. cbn [record_call committed flushed].
    rewrite !(left_id_L ∅ (∪)).
    rewrite (lookup_union_Some_l _ _ _ _ (lookup_insert_eq _ _ _)).
    reflexivity.
  - reflexivity.
Qed.

Lemma register_login_whoami_witness :
  exists (s1 s2 s3 : Session) (token : jwt.token),
    get_async_session_on (postgres_session (fun _ => false))
      (handlers.register_user example_settings
         (UserRepository.postgres_repo (fun _ => false))
         (schemas.mkRegistrationRequest "alice" "p@ss")) (new_session ∅) =
      (Return (schemas.mkRegistrationResponse "alice"), s1)
    /\ get_async_session_on (postgres_session (fun _ => false))
         (handlers.oauth2_login example_settings
            (UserRepository.postgres_repo (fun _ => false)) 1000
            (mkOAuth2PasswordRequestForm "alice" "p@ss")) s1 =
         (Return (schemas.mkLoginResponse token "bearer"), s2)
    /\ get_async_session_on (postgres_session (fun _ => false))
         (handlers.current_user_di example_settings
            (UserRepository.postgres_repo (fun _ => false)) 2000 token) s2 =
         (Return (UserDTO.mk "alice" (User._get_password_hash example_settings "p@ss")), s3).
Proof.
  destruct (register_login_whoami example_settings (fun _ => false) 1000 2000
              "alice" "p@ss" (new_session ∅))
    as (s1 & s2 & s3 & token & H1 & H2 & H3 & _).
  - reflexivity.
  - discriminate.
  - reflexivity.
  - reflexivity.
  - reflexivity.
  - reflexivity.
  - reflexivity.
  - reflexivity.
  - exists s1, s2, s3, token. split; [exact H1|]. split; [exact H2 | exact H3].
Defined.

(* ===================================================================== *)
(** ** update and delete                                                   *)
(* ===================================================================== *)

Lemma dict_of_keys (items : list (string * string)) (k : string) :
  is_Some (BaseRepositoryWrites.dict_of items !! k) <-> k ∈ items.*1.
Proof.
  unfold BaseRepositoryWrites.dict_of.
  assert (H : forall (acc : gmap string string),
    is_Some (foldl (fun values item => <[fst item := snd item]> values) acc items !! k)
    <-> k ∈ items.*1 \/ is_Some (acc !! k)).
  { induction items as [|[k0 v0] items IH]; intros acc; cbn [foldl fmap list_fmap].
    - rewrite elem_of_nil. tauto.
    - rewrite IH. cbn [fst snd]. rewrite elem_of_cons, lookup_insert_is_Some.
      destruct (decide (k0 = k)); intuition congruence. }
  rewrite H, lookup_empty. split; [intros [H1|[x Hx]]; [exact H1|discriminate Hx]|tauto].
Qed.

(** [_get_update_values_dict] needs both the id column and a
    [creation_date] column, two different ones, and raises [KeyError]
    otherwise; what it returns holds every other column with its value
    and neither of those two. *)
Theorem update_values_dict_spec
  {DBModel : Type} (columns : DBModel -> list (string * string))
  (id_field : string) (db_model : DBModel) :
  ((exists values : gmap string string,
      BaseRepositoryWrites._get_update_values_dict columns id_field db_model = inr values)
   <-> id_field <> "creation_date"
       /\ id_field ∈ (columns db_model).*1
       /\ "creation_date" ∈ (columns db_model).*1)
  /\ (forall values : gmap string string,
        BaseRepositoryWrites._get_update_values_dict columns id_field db_model = inr values ->
        forall k : string,
          values !! k =
            if decide (k = id_field \/ k = "creation_date") then None
            else BaseRepositoryWrites.dict_of (columns db_model) !! k).
Proof.
  unfold BaseRepositoryWrites._get_update_values_dict, BaseRepositoryWrites.del.
  rewrite <- !dict_of_keys.
  set (d := BaseRepositoryWrites.dict_of (columns db_model)).
  destruct (d !! id_field) as [v|] eqn:Hid.
  2:{ split.
      - split; [intros [values H]; discriminate H|].
        intros (_ & [x Hx] & _). discriminate Hx.
      - intros values H. discriminate H. }
  destruct (decide (id_field = "creation_date")) as [Heq|Hne].
  { subst id_field. rewrite lookup_delete_eq. split.
    - split; [intros [values H]; discriminate H|]. intros (Hc & _). contradiction.
    - intros values H. discriminate H. }
  rewrite lookup_delete_ne by exact Hne.
  destruct (d !! "creation_date") as [c|] eqn:Hcd.
  - split.
    + split; [intros _; split_and!; eauto|]. intros _. eauto.
    + intros values [= <-] k.
      destruct (decide (k = id_field \/ k = "creation_date")) as [[->| ->]|Hk].
      * rewrite lookup_delete_ne by congruence. apply lookup_delete_eq.
      * apply lookup_delete_eq.
      * rewrite !lookup_delete_ne by (intros Heq; apply Hk; subst; tauto). reflexivity.
  - split.
    + split; [intros [values H]; discriminate H|].
      intros (_ & _ & [x Hx]). discriminate Hx.
    + intros values H. discriminate H.
Qed.

(** [UserModel] has no [creation_date] column, so [update] on the user
    repository raises [KeyError] for every record and every session,
    before the session is asked anything. *)
Theorem user_update_always_raises_key_error
  (execute_update : UserModel.t -> gmap string string -> M Session nat)
  (dto : UserDTO.t) (s : Session) :
  UserRepository_update execute_update dto s =
    (BaseRepositoryWrites.RaisesKeyError "creation_date", s).
Proof.
  unfold UserRepository_update, BaseRepositoryWrites.update.
  assert (H : BaseRepositoryWrites._get_update_values_dict table_columns "username"
                (UserRepository.map_dto_to_model dto) =
              inl (BaseRepositoryWrites.MkKeyError "creation_date")).
  { destruct dto as [U h]. vm_compute. reflexivity. }
  rewrite H. reflexivity.
Qed.

(** [delete] of a username without a row raises [UserDoesNotExistError]
    after the one read, without a delete or a flush; and whatever
    [session.delete] does, [delete] never lets [NoResultFound] out. *)
Theorem user_delete_of_a_missing_row
  (session_delete : UserModel.t -> M Session unit) (entity_id : string) (s : Session) :
  (visible s !! entity_id = None ->
   UserRepository_delete session_delete entity_id s =
     (Raise UserDoesNotExistError, record_call (GetOne entity_id) s))
  /\ fst (UserRepository_delete session_delete entity_id s) <> Raise NoResultFound.
Proof.
  unfold UserRepository_delete, BaseRepositoryWrites.delete, try_except.
  split.
  - intros Hk. unfold bind at 1. unfold session.get_one, bind, called.
    change (visible (record_call (GetOne entity_id) s)) with (visible s).
    rewrite Hk. reflexivity.
  - destruct (bind _ _ s) as [[a|e] s1]; [discriminate|].
    destruct e; cbn; discriminate.
Qed.

Lemma user_delete_of_a_missing_row_witness :
  UserRepository_delete (fun _ => ret tt) "ghost" (new_session {[ "erin" := "h" ]}) =
    (Raise UserDoesNotExistError,
     record_call (GetOne "ghost") (new_session {[ "erin" := "h" ]})).
Proof.
  refine (proj1 (user_delete_of_a_missing_row (fun _ => ret tt) "ghost"
                   (new_session {[ "erin" := "h" ]})) _).
  vm_compute. reflexivity.
Defined.

(* ===================================================================== *)
(** ** What never reaches the database                                     *)
(* ===================================================================== *)

Lemma create_keeps_committed (settings : Settings) (create_data : CreateUserDTO.t)
      (s : Session) :
  committed (snd (User.create settings UserRepository.repo create_data s)) = committed s.
Proof.
  unfold User.create. unfold bind at 1. rewrite find_by_username_eq.
  destruct (visible s !! CreateUserDTO.username create_data) as [h|] eqn:Hk;
    [reflexivity|].
  cbn [fmap option_fmap option_map IUserRepo.create UserRepository.repo].
  unfold UserRepository.create, UserRepository.create_on, BaseRepository.create. unfold bind at 1.
  rewrite get_by_id_eq.
  cbn [UserRepository.map_dto_to_model UserDTO.username UserModel.username].
  change (visible (record_call (GetOne (CreateUserDTO.username create_data)) s))
    with (visible s).
  rewrite Hk. run_coroutine. cbn [committed flushed pending calls record_call].
  match goal with
  | |- context [session.write_all ?ps ?st] =>
      destruct (session.write_all ps st) as [o s''] eqn:Hw
  end.
  apply write_all_frame in Hw. cbn [committed flushed pending calls] in Hw.
  destruct Hw as (Hc & Hw).
  rewrite !(left_id_L ∅ (∪)) in Hc.
  destruct Hw as (_ & _ & [-> | ->]); cbn [snd committed]; exact Hc.
Qed.

(** The aggregate never commits: through any history of registrations,
    logins and token resolutions, on any session, the rows the database
    holds durably stay exactly as they were; only the session's owner
    makes a write durable. *)
Theorem aggregate_never_commits
  (settings : Settings) (ops : list Operation) (s : Session) :
  CommitSession ∉ ops ->
  committed (run_history settings ops s) = committed s.
Proof.
  revert s. induction ops as [|op ops IH]; intros s Hno; [reflexivity|].
  cbn [run_history foldl]. apply not_elem_of_cons in Hno. destruct Hno as [Hop Hno].
  change (foldl (fun s op => perform settings op s) (perform settings op s) ops)
    with (run_history settings ops (perform settings op s)).
  rewrite (IH _ Hno).
  destruct op as [create_data|now login_data|now token|]; cbn [perform].
  - apply create_keeps_committed.
  - rewrite login_eq. reflexivity.
  - rewrite get_current_eq.
    destruct (jwt.decode _ _ _ _) as [err|payload]; [reflexivity|].
    destruct (jwt.get _ _) as [username|]; [|reflexivity].
    destruct (bool_decide _); reflexivity.
  - contradiction.
Qed.

Lemma aggregate_never_commits_witness :
  committed (run_history example_settings
               [Register (CreateUserDTO.mk "alice" "p@ss");
                Login 1000 (LoginUserDTO.mk "alice" "p@ss")]
               (new_session ∅)) = ∅.
Proof.
  refine (aggregate_never_commits example_settings _ (new_session ∅) _).
  intros Hin. apply elem_of_cons in Hin. destruct Hin as [Hin|Hin]; [discriminate Hin|].
  apply list_elem_of_singleton in Hin. discriminate Hin.
Defined.

(** When the flush of a [create] is rejected, the rollback takes the
    whole open transaction with it: afterwards the session shows the
    committed rows and nothing else, so a row that an earlier [create] of
    the same session had flushed, and nobody committed, is gone too. *)
Theorem rollback_discards_earlier_creates
  (before_merge before_flush : gmap string string) (dto : UserDTO.t)
  (s : Session) (e : Exception) (s' : Session) :
  visible s !! UserDTO.username dto = None ->
  UserRepository.create before_merge before_flush dto s = (Raise e, s') ->
  visible s' = before_flush ∪ (before_merge ∪ committed s)
  /\ forall k : string,
       is_Some (flushed s !! k) ->
       committed s !! k = None -> before_merge !! k = None -> before_flush !! k = None ->
       visible s' !! k = None.
Proof.
  intros Hk H. unfold UserRepository.create in H. apply create_failure in H.
  destruct H as (_ & [[[h Hh] _] | [_ ->]]).
  - destruct dto; cbn in Hh, Hk. congruence.
  - assert (Hv : visible (mkSession (before_flush ∪ (before_merge ∪ committed s)) ∅ []
                           (calls s ++ [GetOne (UserModel.username
                                                  (UserRepository.map_dto_to_model dto));
                                        Merge (UserModel.username
                                                 (UserRepository.map_dto_to_model dto));
                                        Flush; Rollback])) =
                   before_flush ∪ (before_merge ∪ committed s)).
    { unfold visible. cbn [committed flushed]. apply (left_id_L ∅ (∪)). }
    split; [exact Hv|]. intros k _ Hc H1 H2. rewrite Hv.
    apply lookup_union_None. split; [exact H2|].
    apply lookup_union_None. auto.
Qed.

Lemma rollback_discards_earlier_creates_witness :
  visible
    (snd (UserRepository.create ∅ {[ "bob" := "their hash" ]} (UserDTO.mk "bob" "our hash")
            (mkSession ∅ {[ "alice" := "h" ]} [] []))) !! "alice" = None.
Proof.
  refine (proj2 (rollback_discards_earlier_creates ∅ {[ "bob" := "their hash" ]}
                   (UserDTO.mk "bob" "our hash") (mkSession ∅ {[ "alice" := "h" ]} [] [])
                   UserAlreadyExistsError
                   (snd (UserRepository.create ∅ {[ "bob" := "their hash" ]}
                           (UserDTO.mk "bob" "our hash")
                           (mkSession ∅ {[ "alice" := "h" ]} [] [])))
                   _ _) "alice" _ _ _ _).
  - vm_compute. reflexivity.
  - vm_compute. reflexivity.
  - vm_compute. eauto.
  - reflexivity.
  - reflexivity.
  - vm_compute. reflexivity.
Defined.
